(** * The flight-data ingestion client ([src/utils/apiclient.js])

    A shallow embedding of the [APIClient] class: the three provider
    adapters ([getAdsbLolFlights], [getOpenSkyFlights],
    [getAviationStackFlights]), the orchestrator [getAllFlights] and the
    geometry helpers, followed by the properties the specification states
    about them.

    Conventions of the embedding.
    - A JavaScript Number is a binary64 [float] (Rocq's primitive floats);
      every arithmetic operation and comparison is the IEEE one.
    - A JavaScript String is a [string]; its characters are read as code
      units below 256 (Latin-1).
    - Provider payloads are JSON values ([value]); an absent property reads
      as [Undefined].
    - [async] methods run to completion one after the other, so they are
      functions in a state-and-exception monad over [World]: the client's
      fields, the clock, and a record of the network requests and adapter
      invocations made so far.  [console] output is not modelled, except
      where producing it can throw inside a [try] ([log_sample]).
    - What the providers answer is a parameter ([Network]), and so are the
      functions of [Math] that ECMAScript leaves to the implementation
      ([Host]). *)

From Stdlib Require Import ZArith NArith Bool List String Ascii Floats Lia.
From Stdlib Require Import DecimalString.
Import ListNotations.

Set Warnings "-inexact-float,-register-all".

Local Open Scope string_scope.
Local Open Scope list_scope.

(* ================================================================= *)
(** ** Strings and the numeric readings of strings *)

Module Latin1.

(** [WhiteSpace] and [LineTerminator] code units below 256: TAB, LF, VT,
    FF, CR, SP and NBSP. *)
Definition is_space (c : ascii) : bool :=
  match N_of_ascii c with
  | 9%N | 10%N | 11%N | 12%N | 13%N | 32%N | 160%N => true
  | _ => false
  end.

Fixpoint trim_start_list (s : list ascii) : list ascii :=
  match s with
  | [] => []
  | c :: s' => if is_space c then trim_start_list s' else s
  end.

Definition trim_list (s : list ascii) : list ascii :=
  rev (trim_start_list (rev (trim_start_list s))).

(** [String.prototype.trim]. *)
Definition trim (s : string) : string :=
  string_of_list_ascii (trim_list (list_ascii_of_string s)).

(** The value of a digit in radix [r], if [c] is one. *)
Definition digit_value (r : N) (c : ascii) : option N :=
  let n := N_of_ascii c in
  let v :=
    if (48 <=? n)%N && (n <=? 57)%N then Some (n - 48)%N
    else if (97 <=? n)%N && (n <=? 122)%N then Some (n - 87)%N
    else if (65 <=? n)%N && (n <=? 90)%N then Some (n - 55)%N
    else None in
  match v with
  | Some d => if (d <? r)%N then Some d else None
  | None => None
  end.

(** The longest prefix of radix-[r] digits: its value, its length and
    what follows it. *)
Fixpoint digits_from (r : N) (s : list ascii) (acc : N) (len : nat)
  : N * nat * list ascii :=
  match s with
  | [] => (acc, len, [])
  | c :: s' =>
      match digit_value r c with
      | Some d => digits_from r s' (acc * r + d)%N (S len)
      | None => (acc, len, s)
      end
  end.

Definition digits (r : N) (s : list ascii) : N * nat * list ascii :=
  digits_from r s 0%N 0%nat.

(** The Number nearest to an integer (ties to even). *)
Definition float_of_Z (z : Z) : float :=
  SF2Prim (binary_normalize prec emax z 0%Z false).

(** The Number nearest to [(-1)^neg * m * 10^e]. *)
Definition float_of_decimal (neg : bool) (m : N) (e : Z) : float :=
  match m with
  | N0 => if neg then neg_zero else zero
  | Npos p =>
      let sf :=
        match e with
        | Zneg k =>
            let '(mz, ez, lz) :=
              SFdiv_core_binary prec emax (Zpos p) 0%Z (Z.pow_pos 10 k) 0%Z in
            binary_round_aux prec emax neg mz ez lz
        | _ => binary_normalize prec emax
                 (if neg then Z.opp (Zpos p * 10 ^ e) else Zpos p * 10 ^ e)%Z
                 0%Z false
        end in
      SF2Prim sf
  end.

Definition strip_sign (s : list ascii) : bool * list ascii :=
  match s with
  | "-"%char :: s' => (true, s')
  | "+"%char :: s' => (false, s')
  | _ => (false, s)
  end.

(** [parseInt(string)] with no radix argument. *)
Definition parseInt (input : string) : float :=
  let s := trim_start_list (list_ascii_of_string input) in
  let '(neg, s) := strip_sign s in
  let '(r, s) :=
    match s with
    | "0"%char :: "x"%char :: s' => (16%N, s')
    | "0"%char :: "X"%char :: s' => (16%N, s')
    | _ => (10%N, s)
    end in
  let '(n, len, _) := digits r s in
  match len with
  | O => nan
  | _ =>
      match n with
      | N0 => if neg then neg_zero else zero
      | Npos p => float_of_Z (if neg then Zneg p else Zpos p)
      end
  end.

(** [ExponentPart], optional: the exponent, or [None] when an [e] is not
    followed by digits. *)
Definition exponent_part (s : list ascii) : option (Z * list ascii) :=
  match s with
  | c :: s' =>
      if (Ascii.eqb c "e" || Ascii.eqb c "E")%bool then
        let '(neg, s'') := strip_sign s' in
        let '(n, len, rest) := digits 10 s'' in
        match len with
        | O => None
        | _ => Some (if neg then Z.opp (Z.of_N n) else Z.of_N n, rest)
        end
      else Some (0%Z, s)
  | [] => Some (0%Z, [])
  end.

(** [StrUnsignedDecimalLiteral] other than [Infinity]. *)
Definition unsigned_decimal (neg : bool) (s : list ascii) : float :=
  let '(ip, ilen, rest) := digits 10 s in
  let '(m, flen, rest) :=
    match rest with
    | "."%char :: rest' =>
        let '(m, flen, rest'') := digits_from 10 rest' ip 0%nat in
        (m, Some flen, rest'')
    | _ => (ip, None, rest)
    end in
  let has_digits :=
    match ilen, flen with
    | O, None => false
    | O, Some O => false
    | _, _ => true
    end in
  if has_digits then
    match exponent_part rest with
    | Some (e, []) =>
        float_of_decimal neg m
          (e - Z.of_nat (match flen with Some k => k | None => O end))
    | _ => nan
    end
  else nan.

Definition Infinity_text : list ascii := list_ascii_of_string "Infinity".

Definition list_ascii_eqb (a b : list ascii) : bool :=
  String.eqb (string_of_list_ascii a) (string_of_list_ascii b).

Definition non_decimal (r : N) (s : list ascii) : float :=
  match digits r s with
  | (n, S _, []) => float_of_Z (Z.of_N n)
  | _ => nan
  end.

(** [StringToNumber]: the Number a String converts to. *)
Definition StringToNumber (input : string) : float :=
  let s := trim_list (list_ascii_of_string input) in
  match s with
  | [] => zero
  | "0"%char :: "x"%char :: s' => non_decimal 16 s'
  | "0"%char :: "X"%char :: s' => non_decimal 16 s'
  | "0"%char :: "o"%char :: s' => non_decimal 8 s'
  | "0"%char :: "O"%char :: s' => non_decimal 8 s'
  | "0"%char :: "b"%char :: s' => non_decimal 2 s'
  | "0"%char :: "B"%char :: s' => non_decimal 2 s'
  | _ =>
      let '(neg, body) := strip_sign s in
      if list_ascii_eqb body Infinity_text
      then (if neg then neg_infinity else infinity)
      else unsigned_decimal neg body
  end.

End Latin1.

(* ================================================================= *)
(** ** JSON values and the coercions the adapters apply to them *)

Inductive value : Type :=
| Undefined
| Null
| Bool (b : bool)
| Num (f : float)
| Str (s : string)
| Arr (items : list value)
| Obj (props : list (string * value)).

(** What [axios] hands over of an HTTP response: the status code, the
    headers (names in lower case) and the parsed body. *)
Record HttpResponse : Type := {
  status : Z;
  headers : list (string * string);
  data : value
}.

(** A thrown exception: a [TypeError] of the language, or the error
    [axios] rejects with ([error.response] is set when the server
    answered). *)
Inductive Error : Type :=
| TypeError
| AxiosError (response : option HttpResponse) (message : string).

Inductive Outcome (A : Type) : Type :=
| Return (a : A)
| Throw (e : Error).
Arguments Return {A} a.
Arguments Throw {A} e.

Definition bindE {A B} (m : Outcome A) (k : A -> Outcome B) : Outcome B :=
  match m with
  | Return a => k a
  | Throw e => Throw e
  end.

Notation "x <~ m ;; k" := (bindE m (fun x => k))
  (at level 61, m at next level, right associativity).

Fixpoint mapE {A B} (f : A -> Outcome B) (l : list A) : Outcome (list B) :=
  match l with
  | [] => Return []
  | a :: l' =>
      b <~ f a ;;
      bs <~ mapE f l' ;;
      Return (b :: bs)
  end.

Fixpoint filterE {A} (f : A -> Outcome bool) (l : list A) : Outcome (list A) :=
  match l with
  | [] => Return []
  | a :: l' =>
      keep <~ f a ;;
      rest <~ filterE f l' ;;
      Return (if keep then a :: rest else rest)
  end.

(** Own property of a parsed JSON object; of two members with one name
    [JSON.parse] keeps the later. *)
Fixpoint lookup {A} (k : string) (ps : list (string * A)) : option A :=
  match ps with
  | [] => None
  | (k', v) :: ps' =>
      match lookup k ps' with
      | Some v' => Some v'
      | None => if String.eqb k k' then Some v else None
      end
  end.

(** [ToBoolean]. *)
Definition ToBoolean (v : value) : bool :=
  match v with
  | Undefined | Null => false
  | Bool b => b
  | Num f => negb (is_zero f || is_nan f)
  | Str s => negb (String.eqb s "")
  | Arr _ | Obj _ => true
  end.

(** [a || b]. *)
Definition js_or (a b : value) : value := if ToBoolean a then a else b.

(** [v.k] for a property name [k] that is no array index, is not
    [length], and is not defined on a built-in prototype; every name the
    adapters read from provider data is of that kind.  Reading a property
    of [undefined] or [null] throws. *)
Definition get_prop (v : value) (k : string) : Outcome value :=
  match v with
  | Undefined | Null => Throw TypeError
  | Obj ps => Return (match lookup k ps with Some x => x | None => Undefined end)
  | Bool _ | Num _ | Str _ | Arr _ => Return Undefined
  end.

(** [v?.k]. *)
Definition get_prop_opt (v : value) (k : string) : Outcome value :=
  match v with
  | Undefined | Null => Return Undefined
  | _ => get_prop v k
  end.

Definition index_key (i : nat) : string :=
  NilEmpty.string_of_uint (Nat.to_uint i).

(** [v[i]] for a literal index [i]. *)
Definition get_index (v : value) (i : nat) : Outcome value :=
  match v with
  | Undefined | Null => Throw TypeError
  | Arr l => Return (nth i l Undefined)
  | Str s =>
      Return (match String.get i s with
              | Some c => Str (String c EmptyString)
              | None => Undefined
              end)
  | Obj ps =>
      Return (match lookup (index_key i) ps with Some x => x | None => Undefined end)
  | Bool _ | Num _ => Return Undefined
  end.

(** [v === 0]. *)
Definition is_strictly_zero (v : value) : bool :=
  match v with
  | Num f => PrimFloat.eqb f 0
  | _ => false
  end.

(** [v.length === 0]: the length of an array or of a String is the number
    of its elements; an object has the member it was sent with, if any. *)
Definition length_is_zero (v : value) : Outcome bool :=
  match v with
  | Undefined | Null => Throw TypeError
  | Arr l => Return (Nat.eqb (List.length l) 0)
  | Str s => Return (Nat.eqb (String.length s) 0)
  | Obj ps =>
      Return (match lookup "length" ps with
              | Some x => is_strictly_zero x
              | None => false
              end)
  | Bool _ | Num _ => Return false
  end.

(** A parsed JSON object holds no function, so one with an own member
    [toString] cannot be converted to a primitive: the conversion throws. *)
Definition own_toString (ps : list (string * value)) : bool :=
  match lookup "toString" ps with
  | Some _ => true
  | None => false
  end.

(** Whether [ToString] completes on [v]. *)
Fixpoint ToString_ok (v : value) : bool :=
  match v with
  | Obj ps => negb (own_toString ps)
  | Arr l => forallb ToString_ok l
  | _ => true
  end.

(** [StringToNumber] of the text [Array.prototype.join] produces for the
    one-element array holding [v]: [undefined] and [null] print as the
    empty string, a Number prints as its shortest decimal that reads back
    as itself (the two zeros both print as [0]), a plain object prints as
    [[object Object]], and the text of two or more elements holds a comma. *)
Fixpoint element_number (v : value) : float :=
  match v with
  | Undefined | Null => zero
  | Bool _ => nan
  | Num f => if is_zero f then zero else f
  | Str s => Latin1.StringToNumber s
  | Obj _ => nan
  | Arr l =>
      match l with
      | [] => zero
      | [x] => element_number x
      | _ => nan
      end
  end.

(** [ToNumber]. *)
Definition ToNumber (v : value) : Outcome float :=
  match v with
  | Undefined => Return nan
  | Null => Return zero
  | Bool b => Return (if b then one else zero)
  | Num f => Return f
  | Str s => Return (Latin1.StringToNumber s)
  | Obj ps => if own_toString ps then Throw TypeError else Return nan
  | Arr l => if forallb ToString_ok l then Return (element_number v) else Throw TypeError
  end.

(** [v * c], [v < c] and [Math.abs(v)] for a Number [c]. *)
Definition js_mul (v : value) (c : float) : Outcome float :=
  f <~ ToNumber v ;; Return (f * c)%float.

Definition js_lt (v : value) (c : float) : Outcome bool :=
  f <~ ToNumber v ;; Return (f <? c)%float.

Definition Math_abs (v : value) : Outcome float :=
  f <~ ToNumber v ;; Return (abs f).

(** [s.trim()] where [s] was found truthy: only a String has the method. *)
Definition call_trim (v : value) : Outcome value :=
  match v with
  | Str s => Return (Str (Latin1.trim s))
  | _ => Throw TypeError
  end.

(** [Math.PI]. *)
Definition Math_PI : float := 3.141592653589793%float.

(** The functions of [Math] whose results ECMAScript leaves to the
    implementation. *)
Class Host : Type := {
  Math_sin : float -> float;
  Math_cos : float -> float;
  Math_atan2 : float -> float -> float
}.

(** [Math.sqrt] is the IEEE square root. *)
Definition Math_sqrt (x : float) : float := PrimFloat.sqrt x.

(* ================================================================= *)
(** ** The client, the network and the world *)

(** The fields the constructor sets.  A field read from [process.env] is
    [None] when the variable is not set. *)
Record APIClient : Type := {
  aviationStackKey : option string;
  openSkyUsername : option string;
  openSkyPassword : option string;
  useAdsbLol : bool;
  airportICAO : string;
  airportLat : float;
  airportLon : float;
  airportRadius : float;
  lastOpenSkyCall : float;
  openSkyMinInterval : float;
  openSkyRetryAfter : float;
  openSkyDisabledUntil : float
}.

(** The client the constructor builds in an empty environment. *)
Definition default_client : APIClient := {|
  aviationStackKey := None;
  openSkyUsername := None;
  openSkyPassword := None;
  useAdsbLol := true;
  airportICAO := "EDDF";
  airportLat := 50.0379;
  airportLon := 8.5622;
  airportRadius := 10;
  lastOpenSkyCall := 0;
  openSkyMinInterval := 10000;
  openSkyRetryAfter := 0;
  openSkyDisabledUntil := 0
|}.

(** The [dep_iata] parameter of a schedule request: a String of the table
    [icaoToIata] (or the default), or the member of [Object.prototype]
    of the given name, which indexing the table by that name finds. *)
Inductive DepIata : Type :=
| Code (iata : string)
| Inherited (name : string).

(** A GET request, by the URL shape and the values substituted in it. *)
Inductive Request : Type :=
| AdsbPoint (lat lon radiusNM : float)
| AdsbLatLonDist (lat lon radiusNM : float)
| OpenSkyStates (lamin lomin lamax lomax : float) (auth : option (string * string))
| AviationStackFlights (access_key : string) (dep_iata : DepIata) (limit : Z).

(** How a request ends, [elapsed] milliseconds after it was sent: [axios]
    resolves with the response, or rejects (with the response when the
    server answered outside 2xx, without one on a timeout or a connection
    failure). *)
Inductive AxiosResult : Type :=
| Fulfilled (elapsed : float) (response : HttpResponse)
| Rejected (elapsed : float) (response : option HttpResponse) (message : string).

(** The providers: the result of the [n]-th request of a run. *)
Class Network : Type := {
  axios_result : nat -> Request -> AxiosResult
}.

Inductive Adapter : Type := AdsbLol | OpenSky | AviationStack.

Definition Adapter_eqb (a b : Adapter) : bool :=
  match a, b with
  | AdsbLol, AdsbLol | OpenSky, OpenSky | AviationStack, AviationStack => true
  | _, _ => false
  end.

(** [client] is the shared instance the module exports, [clock] is what
    [Date.now()] reads, [requests] lists the GET requests sent and
    [invoked] the adapter methods entered, both oldest first. *)
Record World : Type := {
  client : APIClient;
  clock : float;
  requests : list Request;
  invoked : list Adapter
}.

Definition M (A : Type) : Type := World -> Outcome A * World.

Definition ret {A} (a : A) : M A := fun w => (Return a, w).

Definition throw {A} (e : Error) : M A := fun w => (Throw e, w).

Definition bind {A B} (m : M A) (k : A -> M B) : M B :=
  fun w =>
    match m w with
    | (Return a, w') => k a w'
    | (Throw e, w') => (Throw e, w')
    end.

Notation "x <- m ;; k" := (bind m (fun x => k))
  (at level 61, m at next level, right associativity).
Notation "m ;;; k" := (bind m (fun _ => k))
  (at level 61, right associativity).

(** [try { m } catch (error) { handler error }]. *)
Definition try_catch {A} (m : M A) (handler : Error -> M A) : M A :=
  fun w =>
    match m w with
    | (Return a, w') => (Return a, w')
    | (Throw e, w') => handler e w'
    end.

Definition lift {A} (o : Outcome A) : M A := fun w => (o, w).

Definition this : M APIClient := fun w => (Return (client w), w).

Definition Date_now : M float := fun w => (Return (clock w), w).

Definition set_client (c : APIClient) : M unit :=
  fun w => (Return tt, {| client := c; clock := clock w;
                          requests := requests w; invoked := invoked w |}).

(** Entering an adapter method, as a spy on the client would record it. *)
Definition enter (a : Adapter) : M unit :=
  fun w => (Return tt, {| client := client w; clock := clock w;
                          requests := requests w; invoked := invoked w ++ [a] |}).

(** [await axios.get(...)]. *)
Definition axios_get `{Network} (req : Request) : M HttpResponse :=
  fun w =>
    let sent (dt : float) :=
      {| client := client w; clock := (clock w + dt)%float;
         requests := requests w ++ [req]; invoked := invoked w |} in
    match axios_result (List.length (requests w)) req with
    | Fulfilled dt response => (Return response, sent dt)
    | Rejected dt response message => (Throw (AxiosError response message), sent dt)
    end.

(** [new Date().toISOString()], kept as the instant it prints. *)
Inductive DateString : Type := toISOString (ms : float).

Definition new_Date_toISOString : M DateString :=
  fun w => (Return (toISOString (clock w)), w).

(** Truthiness of a field read from [process.env]. *)
Definition env_truthy (v : option string) : bool :=
  match v with
  | Some s => negb (String.eqb s "")
  | None => false
  end.

(* ================================================================= *)
(** ** Canonical records *)

(** A position record, as both position adapters emit it. *)
Record Flight : Type := {
  callsign : value;
  origin_country : value;
  longitude : value;
  latitude : value;
  altitude : value;
  velocity : value;
  heading : value;
  vertical_rate : value;
  on_ground : value;
  last_contact : value;
  timestamp : DateString
}.

Module Leg.
Record t : Type := {
  airport : value;
  iata : value;
  scheduled : value;
  estimated : value;
  actual : value;
  terminal : value;
  gate : value
}.
End Leg.

Module Aircraft.
Record t : Type := {
  registration : value;
  iata : value;
  icao : value
}.
End Aircraft.

Module Schedule.
Record t : Type := {
  flightNumber : value;
  airline : value;
  airlineCode : value;
  departure : Leg.t;
  arrival : Leg.t;
  status : value;
  aircraft : Aircraft.t
}.
End Schedule.

(** What [getAllFlights] returns. *)
Record Envelope : Type := {
  livePositions : list Flight;
  schedules : list Schedule.t;
  envelope_timestamp : DateString;
  totalLive : nat;
  totalScheduled : nat;
  source : string
}.

(* ================================================================= *)
(** ** The adapters *)

Definition set_lastOpenSkyCall (c : APIClient) (t : float) : APIClient := {|
  aviationStackKey := aviationStackKey c;
  openSkyUsername := openSkyUsername c;
  openSkyPassword := openSkyPassword c;
  useAdsbLol := useAdsbLol c;
  airportICAO := airportICAO c;
  airportLat := airportLat c;
  airportLon := airportLon c;
  airportRadius := airportRadius c;
  lastOpenSkyCall := t;
  openSkyMinInterval := openSkyMinInterval c;
  openSkyRetryAfter := openSkyRetryAfter c;
  openSkyDisabledUntil := openSkyDisabledUntil c
|}.

Definition set_openSkyRetryAfter (c : APIClient) (t : float) : APIClient := {|
  aviationStackKey := aviationStackKey c;
  openSkyUsername := openSkyUsername c;
  openSkyPassword := openSkyPassword c;
  useAdsbLol := useAdsbLol c;
  airportICAO := airportICAO c;
  airportLat := airportLat c;
  airportLon := airportLon c;
  airportRadius := airportRadius c;
  lastOpenSkyCall := lastOpenSkyCall c;
  openSkyMinInterval := openSkyMinInterval c;
  openSkyRetryAfter := t;
  openSkyDisabledUntil := openSkyDisabledUntil c
|}.

Definition set_openSkyDisabledUntil (c : APIClient) (t : float) : APIClient := {|
  aviationStackKey := aviationStackKey c;
  openSkyUsername := openSkyUsername c;
  openSkyPassword := openSkyPassword c;
  useAdsbLol := useAdsbLol c;
  airportICAO := airportICAO c;
  airportLat := airportLat c;
  airportLon := airportLon c;
  airportRadius := airportRadius c;
  lastOpenSkyCall := lastOpenSkyCall c;
  openSkyMinInterval := openSkyMinInterval c;
  openSkyRetryAfter := openSkyRetryAfter c;
  openSkyDisabledUntil := t
|}.

(** [hasOpenSkyCredentials]. *)
Definition hasOpenSkyCredentials (c : APIClient) : bool :=
  env_truthy (openSkyUsername c) && env_truthy (openSkyPassword c).

(** *** ADSB.lol: the unlimited position feed *)

(** The [filter] callback (lines 104-113). *)
Definition adsb_keep (aircraft : value) : Outcome bool :=
  lat <~ get_prop aircraft "lat" ;;
  if negb (ToBoolean lat) then Return false else
  lon <~ get_prop aircraft "lon" ;;
  if negb (ToBoolean lon) then Return false else
  abs_lat <~ Math_abs lat ;;
  if (90 <? abs_lat)%float then Return false else
  abs_lon <~ Math_abs lon ;;
  if (180 <? abs_lon)%float then Return false else
  Return true.

(** The [map] callback (lines 114-126); [now] is [new Date().toISOString()]. *)
Definition adsb_flight (now : DateString) (aircraft : value) : Outcome Flight :=
  flight <~ get_prop aircraft "flight" ;;
  the_callsign <~
    (if ToBoolean flight then call_trim flight
     else r <~ get_prop aircraft "r" ;;
          hex <~ get_prop aircraft "hex" ;;
          Return (js_or (js_or r hex) (Str "UNKNOWN"))) ;;
  flag <~ get_prop aircraft "flag" ;;
  lon <~ get_prop aircraft "lon" ;;
  lat <~ get_prop aircraft "lat" ;;
  alt_baro <~ get_prop aircraft "alt_baro" ;;
  alt_geom <~ get_prop aircraft "alt_geom" ;;
  the_altitude <~
    (if ToBoolean alt_baro then js_mul alt_baro 3.28084
     else if ToBoolean alt_geom then js_mul alt_geom 3.28084
     else Return zero) ;;
  gs <~ get_prop aircraft "gs" ;;
  track <~ get_prop aircraft "track" ;;
  true_heading <~ get_prop aircraft "true_heading" ;;
  baro_rate <~ get_prop aircraft "baro_rate" ;;
  the_vertical_rate <~
    (if ToBoolean baro_rate then js_mul baro_rate 196.85 else Return zero) ;;
  baro_low <~ js_lt alt_baro 100 ;;
  grounded <~
    (if baro_low then Return true
     else geom_low <~ js_lt alt_geom 100 ;; Return (geom_low || false)%bool) ;;
  seen <~ get_prop aircraft "seen" ;;
  Return {|
    callsign := the_callsign;
    origin_country := js_or flag (Str "Unknown");
    longitude := lon;
    latitude := lat;
    altitude := Num the_altitude;
    velocity := js_or gs (Num 0);
    heading := js_or (js_or track true_heading) (Num 0);
    vertical_rate := Num the_vertical_rate;
    on_ground := Bool grounded;
    last_contact := js_or seen (Num 0);
    timestamp := now
  |}.

(** The log of the first record (lines 130-132): its template literal
    converts [flights[0].callsign] to a String, inside the [try]; the
    altitude beside it is always a Number, whose [toFixed] completes. *)
Definition log_sample (flights : list Flight) : Outcome unit :=
  match flights with
  | first :: _ =>
      if ToString_ok (callsign first) then Return tt else Throw TypeError
  | [] => Return tt
  end.

(** From the body of the response to the records (lines 92-134). *)
Definition adsb_flights (now : DateString) (response_data : value)
  : Outcome (list Flight) :=
  aircraftData <~
    match response_data with
    | Arr _ => Return response_data
    | _ => ac <~ get_prop response_data "ac" ;; Return (js_or ac (Arr []))
    end ;;
  empty <~ length_is_zero aircraftData ;;
  if empty then Return [] else
  match aircraftData with
  | Arr l =>
      kept <~ filterE adsb_keep l ;;
      flights <~ mapE (adsb_flight now) kept ;;
      _ <~ log_sample flights ;;
      Return flights
  | _ => Throw TypeError
  end.

(** *** OpenSky: the quota-limited position feed *)

(** The [map] callback (lines 216-228). *)
Definition opensky_flight (now : DateString) (state : value) : Outcome Flight :=
  s1 <~ get_index state 1 ;;
  the_callsign <~ (if ToBoolean s1 then call_trim s1 else Return (Str "UNKNOWN")) ;;
  s2 <~ get_index state 2 ;;
  s5 <~ get_index state 5 ;;
  s6 <~ get_index state 6 ;;
  s7 <~ get_index state 7 ;;
  the_altitude <~ (if ToBoolean s7 then js_mul s7 3.28084 else Return zero) ;;
  s9 <~ get_index state 9 ;;
  the_velocity <~ (if ToBoolean s9 then js_mul s9 1.94384 else Return zero) ;;
  s10 <~ get_index state 10 ;;
  s11 <~ get_index state 11 ;;
  s8 <~ get_index state 8 ;;
  s4 <~ get_index state 4 ;;
  Return {|
    callsign := the_callsign;
    origin_country := s2;
    longitude := s5;
    latitude := s6;
    altitude := Num the_altitude;
    velocity := Num the_velocity;
    heading := js_or s10 (Num 0);
    vertical_rate := js_or s11 (Num 0);
    on_ground := js_or s8 (Bool false);
    last_contact := s4;
    timestamp := now
  |}.

(** The three checks that open [getOpenSkyFlights] (lines 157-174), in
    their order, named after the governor states of the specification. *)
Inductive Verdict : Type := CircuitOpen | RetryWait | Throttled | Available.

Definition governor (now : float) (c : APIClient) : Verdict :=
  if (now <? openSkyDisabledUntil c)%float then CircuitOpen
  else if (now <? openSkyRetryAfter c)%float then RetryWait
  else if (now - lastOpenSkyCall c <? openSkyMinInterval c)%float then Throttled
  else Available.

Definition retry_after_header : string := "x-rate-limit-retry-after-seconds".

(** [parseInt(error.response.headers[...] || '60')]. *)
Definition retryAfterSeconds (response : HttpResponse) : float :=
  Latin1.parseInt
    (match lookup retry_after_header (headers response) with
     | Some s => if String.eqb s "" then "60" else s
     | None => "60"
     end).

(** *** AviationStack: the schedule feed *)

Definition icaoToIata : list (string * string) :=
  [ ("EDDF", "FRA"); ("KJFK", "JFK"); ("EGLL", "LHR"); ("LFPG", "CDG");
    ("EHAM", "AMS"); ("LEMD", "MAD"); ("LIRF", "FCO") ].

(** The names [Object.prototype] defines in Node: an object literal answers
    each of them with a function (with the prototype itself for
    [__proto__]), all truthy. *)
Definition Object_prototype_names : list string :=
  [ "constructor"; "hasOwnProperty"; "isPrototypeOf"; "propertyIsEnumerable";
    "toLocaleString"; "toString"; "valueOf"; "__proto__";
    "__defineGetter__"; "__defineSetter__";
    "__lookupGetter__"; "__lookupSetter__" ].

Definition inherited (name : string) : bool :=
  existsb (String.eqb name) Object_prototype_names.

(** [icaoToIata[this.airportICAO] || 'FRA'] (line 282): the own members of
    the literal first, then the inherited ones. *)
Definition iataCode (c : APIClient) : DepIata :=
  match lookup (airportICAO c) icaoToIata with
  | Some code => Code code
  | None =>
      if inherited (airportICAO c) then Inherited (airportICAO c)
      else Code "FRA"
  end.

Definition leg_of (leg : value) : Outcome Leg.t :=
  airport <~ get_prop leg "airport" ;;
  iata <~ get_prop leg "iata" ;;
  scheduled <~ get_prop leg "scheduled" ;;
  estimated <~ get_prop leg "estimated" ;;
  actual <~ get_prop leg "actual" ;;
  terminal <~ get_prop leg "terminal" ;;
  gate <~ get_prop leg "gate" ;;
  Return {| Leg.airport := airport; Leg.iata := iata;
            Leg.scheduled := scheduled; Leg.estimated := estimated;
            Leg.actual := actual; Leg.terminal := terminal; Leg.gate := gate |}.

(** The [map] callback (lines 302-330). *)
Definition schedule_of (flight : value) : Outcome Schedule.t :=
  fl <~ get_prop flight "flight" ;;
  fl_iata <~ get_prop fl "iata" ;;
  fl_icao <~ get_prop fl "icao" ;;
  al <~ get_prop flight "airline" ;;
  al_name <~ get_prop al "name" ;;
  al_iata <~ get_prop al "iata" ;;
  dep <~ get_prop flight "departure" ;;
  the_departure <~ leg_of dep ;;
  arr <~ get_prop flight "arrival" ;;
  the_arrival <~ leg_of arr ;;
  flight_status <~ get_prop flight "flight_status" ;;
  ac <~ get_prop flight "aircraft" ;;
  registration <~ get_prop_opt ac "registration" ;;
  ac_iata <~ get_prop_opt ac "iata" ;;
  ac_icao <~ get_prop_opt ac "icao" ;;
  Return {|
    Schedule.flightNumber := js_or fl_iata fl_icao;
    Schedule.airline := al_name;
    Schedule.airlineCode := al_iata;
    Schedule.departure := the_departure;
    Schedule.arrival := the_arrival;
    Schedule.status := flight_status;
    Schedule.aircraft :=
      {| Aircraft.registration := registration;
         Aircraft.iata := ac_iata; Aircraft.icao := ac_icao |}
  |}.

Section Engine.
Context `{host : Host} `{net : Network}.

(** The loop over the candidate endpoints (lines 68-84): the first
    request that resolves wins. *)
Fixpoint first_response (endpoints : list Request) : M (option HttpResponse) :=
  match endpoints with
  | [] => ret None
  | url :: rest =>
      try_catch (response <- axios_get url ;; ret (Some response))
                (fun _ => first_response rest)
  end.

Definition getAdsbLolFlights : M (list Flight) :=
  enter AdsbLol ;;;
  try_catch
    (c <- this ;;
     let radiusNM := (airportRadius c * 0.539957)%float in
     let endpoints :=
       [ AdsbPoint (airportLat c) (airportLon c) radiusNM;
         AdsbLatLonDist (airportLat c) (airportLon c) radiusNM ] in
     response <- first_response endpoints ;;
     match response with
     | None => ret []
     | Some r =>
         now <- new_Date_toISOString ;;
         lift (adsb_flights now (data r))
     end)
    (fun _ => ret []).

(** The [catch] block of [getOpenSkyFlights] (lines 238-257). *)
Definition opensky_catch (error : Error) : M (list Flight) :=
  match error with
  | AxiosError (Some response) _ =>
      if (status response =? 429)%Z then
        let seconds := retryAfterSeconds response in
        t <- Date_now ;;
        c <- this ;;
        let c1 := set_openSkyRetryAfter c (t + seconds * 1000)%float in
        set_client c1 ;;;
        (if (300 <? seconds)%float
         then set_client (set_openSkyDisabledUntil c1 (openSkyRetryAfter c1))
         else ret tt) ;;;
        ret []
      else ret []
  | _ => ret []
  end.

(** The bounding-box request (lines 177-206). *)
Definition opensky_request (c : APIClient) : Request :=
  let latDelta := (airportRadius c / 111)%float in
  let lonDelta :=
    (airportRadius c / (111 * Math_cos (airportLat c * Math_PI / 180)))%float in
  let lamin := (airportLat c - latDelta)%float in
  let lamax := (airportLat c + latDelta)%float in
  let lomin := (airportLon c - lonDelta)%float in
  let lomax := (airportLon c + lonDelta)%float in
  let auth :=
    if hasOpenSkyCredentials c
    then match openSkyUsername c, openSkyPassword c with
         | Some u, Some p => Some (u, p)
         | _, _ => None
         end
    else None in
  OpenSkyStates lamin lomin lamax lomax auth.

Definition getOpenSkyFlights : M (list Flight) :=
  enter OpenSky ;;;
  try_catch
    (now <- Date_now ;;
     c <- this ;;
     match governor now c with
     | CircuitOpen | RetryWait | Throttled => ret []
     | Available =>
         response <- axios_get (opensky_request c) ;;
         c' <- this ;;
         set_client (set_lastOpenSkyCall c' now) ;;;
         if negb (ToBoolean (data response)) then ret [] else
         states <- lift (get_prop (data response) "states") ;;
         if negb (ToBoolean states) then ret [] else
         match states with
         | Arr l =>
             stamp <- new_Date_toISOString ;;
             lift (mapE (opensky_flight stamp) l)
         | _ => throw TypeError
         end
     end)
    opensky_catch.

Definition getAviationStackFlights : M (list Schedule.t) :=
  enter AviationStack ;;;
  try_catch
    (c <- this ;;
     match aviationStackKey c with
     | None => ret []
     | Some key =>
         if String.eqb key "" then ret [] else
         response <- axios_get (AviationStackFlights key (iataCode c) 100) ;;
         if negb (ToBoolean (data response)) then ret [] else
         flights_data <- lift (get_prop (data response) "data") ;;
         if negb (ToBoolean flights_data) then ret [] else
         match flights_data with
         | Arr l => lift (mapE schedule_of l)
         | _ => throw TypeError
         end
     end)
    (fun _ => ret []).

Definition getAllFlights : M Envelope :=
  try_catch
    (c <- this ;;
     positions <-
       (if useAdsbLol c then
          from_adsb <- getAdsbLolFlights ;;
          if Nat.eqb (List.length from_adsb) 0 then getOpenSkyFlights
          else ret from_adsb
        else getOpenSkyFlights) ;;
     aviationStackFlights <- getAviationStackFlights ;;
     stamp <- new_Date_toISOString ;;
     c' <- this ;;
     ret {|
       livePositions := positions;
       schedules := aviationStackFlights;
       envelope_timestamp := stamp;
       totalLive := List.length positions;
       totalScheduled := List.length aviationStackFlights;
       source :=
         if Nat.ltb 0 (List.length positions)
         then (if useAdsbLol c' then "ADSB.lol" else "OpenSky")
         else "None"
     |})
    (fun error => throw error).

(** *** Geometry *)

Definition toRad (degrees : float) : float := (degrees * Math_PI / 180)%float.

Definition calculateDistance (lat1 lon1 lat2 lon2 : float) : float :=
  let R := 6371%float in
  let dLat := toRad (lat2 - lat1) in
  let dLon := toRad (lon2 - lon1) in
  let a :=
    (Math_sin (dLat / 2) * Math_sin (dLat / 2) +
     Math_cos (toRad lat1) * Math_cos (toRad lat2) *
     Math_sin (dLon / 2) * Math_sin (dLon / 2))%float in
  let c := (2 * Math_atan2 (Math_sqrt a) (Math_sqrt (1 - a)))%float in
  (R * c)%float.

Definition isInAirportZone (c : APIClient) (lat lon : float) : bool :=
  (calculateDistance (airportLat c) (airportLon c) lat lon <=? airportRadius c)%float.

End Engine.

(* ================================================================= *)
(** ** Specification-side definitions and sample runs *)

(** The coordinate invariant of a canonical position: both coordinates
    are Numbers, within [-90, 90] and [-180, 180]. *)
Definition valid_coordinates (r : Flight) : bool :=
  match latitude r, longitude r with
  | Num lat, Num lon => ((abs lat <=? 90) && (abs lon <=? 180))%float
  | _, _ => false
  end.

(** The aircraft array of an ADSB.lol response: the body itself, or its
    member [ac]. *)
Definition aircraft_of (response_data : value) : list value :=
  match response_data with
  | Arr l => l
  | _ =>
      match get_prop response_data "ac" with
      | Return (Arr l) => l
      | _ => []
      end
  end.

(** A coordinate as the provider documents it: a JSON number, [null], or
    absent. *)
Definition numeric_or_missing (v : value) : bool :=
  match v with
  | Num _ | Null | Undefined => true
  | _ => false
  end.

Definition plain_position (aircraft : value) : bool :=
  match get_prop aircraft "lat", get_prop aircraft "lon" with
  | Return lat, Return lon => numeric_or_missing lat && numeric_or_missing lon
  | _, _ => false
  end.

(** The Number the code's arithmetic and comparisons make of a field:
    [ToNumber] ([null] is 0, an absent field or a String that is no numeral
    is NaN).  Where [ToNumber] throws the entry is not normalized at all,
    or the operand is not reached. *)
Definition number_of (v : value) : float :=
  match ToNumber v with
  | Return f => f
  | Throw _ => nan
  end.

(** What the code's truthiness test makes of a field: its Number, unless
    the field is falsy (absent, [null], [false], zero, NaN or the empty
    String). *)
Definition truthy_number (v : value) : option float :=
  if ToBoolean v then Some (number_of v) else None.

(** The altitude rule in the words of the specification: the barometric
    altitude times 3.28084 when present, otherwise the geometric altitude
    times 3.28084 when present, otherwise 0. *)
Definition spec_altitude (alt_baro alt_geom : option float) : float :=
  match alt_baro, alt_geom with
  | Some b, _ => (b * 3.28084)%float
  | None, Some g => (g * 3.28084)%float
  | None, None => zero
  end.

(** What the code's truthiness test makes of a numeric field: the Number,
    unless the field is absent, zero or NaN. *)
Definition truthy_field (o : option float) : option float :=
  match o with
  | Some f => if (is_zero f || is_nan f)%bool then None else Some f
  | None => None
  end.

Definition below_100 (o : option float) : bool :=
  match o with
  | Some f => (f <? 100)%float
  | None => false
  end.

(** How often an adapter was entered. *)
Definition entries (a : Adapter) (log : list Adapter) : nat :=
  List.length (filter (Adapter_eqb a) log).

(** The world after an adapter was entered and did nothing else. *)
Definition entered (a : Adapter) (w : World) : World :=
  {| client := client w; clock := clock w;
     requests := requests w; invoked := invoked w ++ [a] |}.

(** A computation that leaves the invocation record alone, and one that
    always returns (never throws). *)
Definition quiet {A} (m : M A) : Prop :=
  forall w, invoked (snd (m w)) = invoked w.

Definition total {A} (m : M A) : Prop :=
  forall w, exists a, fst (m w) = Return a.

(** A Number other than NaN. *)
Definition is_number (f : float) : Prop := Prim2SF f <> S754_nan.

Module Sample.

(** A host whose [Math] functions are the first terms of their series:
    crude, and enough where an instance is needed. *)
Definition series_host : Host := {|
  Math_sin := fun x => (x * (1 - x * x / 6))%float;
  Math_cos := fun x => (1 - x * x / 2)%float;
  Math_atan2 := fun y x => (y / x)%float
|}.

(** A host that has, at the arguments the run between the antipodal
    points (12, 0) and (-12, 180) reaches, the correctly rounded sine and
    cosine, which are the values V8 computes there (its [Math.sin] and
    [Math.cos] are fdlibm's; glibc's agree); and [Math.atan2] of a NaN is
    NaN, as ECMAScript requires.  Elsewhere the first terms of the series
    stand in. *)
Definition antipodal_host : Host := {|
  Math_sin := fun x =>
    (if x =? 0.20943951023931953 then 0.20791169081775931
     else if x =? -0.20943951023931953 then -0.20791169081775931
     else if x =? 1.5707963267948966 then 1
     else if x =? -1.5707963267948966 then -1
     else x * (1 - x * x / 6))%float;
  Math_cos := fun x =>
    (if abs x =? 0.20943951023931953 then 0.9781476007338057
     else 1 - x * x / 2)%float;
  Math_atan2 := fun y x => (if is_nan x then nan else y / x)%float
|}.

Definition ok (body : value) : AxiosResult :=
  Fulfilled 120 {| status := 200; headers := []; data := body |}.

Definition timed_out : AxiosResult :=
  Rejected 15000 None "timeout of 15000ms exceeded".

Definition too_many_requests (hdrs : list (string * string)) : AxiosResult :=
  Rejected 80 (Some {| status := 429; headers := hdrs; data := Str "" |})
           "Request failed with status code 429".

Definition start : World :=
  {| client := default_client; clock := 1700000000000;
     requests := []; invoked := [] |}.

Definition with_key (w : World) : World :=
  {| client :=
       {| aviationStackKey := Some "k3y";
          openSkyUsername := openSkyUsername (client w);
          openSkyPassword := openSkyPassword (client w);
          useAdsbLol := useAdsbLol (client w);
          airportICAO := airportICAO (client w);
          airportLat := airportLat (client w);
          airportLon := airportLon (client w);
          airportRadius := airportRadius (client w);
          lastOpenSkyCall := lastOpenSkyCall (client w);
          openSkyMinInterval := openSkyMinInterval (client w);
          openSkyRetryAfter := openSkyRetryAfter (client w);
          openSkyDisabledUntil := openSkyDisabledUntil (client w) |};
     clock := clock w; requests := requests w; invoked := invoked w |}.

(** Scenario 1 of the specification: one aircraft near Frankfurt. *)
Definition aircraft_300 : value :=
  Obj [ ("hex", Str "3c6444"); ("flight", Str "DLH400  ");
        ("lat", Num 50.05); ("lon", Num 8.60); ("alt_baro", Num 300) ].

(** An aircraft whose barometric altitude is exactly 0. *)
Definition aircraft_sea_level : value :=
  Obj [ ("hex", Str "3c6444"); ("lat", Num 50.05); ("lon", Num 8.60);
        ("alt_baro", Num 0); ("alt_geom", Num 500) ].

(** An aircraft at 300 m whose geometric altitude is [null]. *)
Definition aircraft_null_geom : value :=
  Obj [ ("hex", Str "3c6444"); ("lat", Num 50.05); ("lon", Num 8.60);
        ("alt_baro", Num 300); ("alt_geom", Null) ].

(** An aircraft on the equator. *)
Definition aircraft_equator : value :=
  Obj [ ("hex", Str "a1b2c3"); ("lat", Num 0); ("lon", Num 8.60);
        ("alt_baro", Num 11000) ].

Definition adsb_up : Network := {|
  axios_result := fun _ req =>
    match req with
    | AdsbPoint _ _ _ => ok (Obj [("ac", Arr [aircraft_300])])
    | _ => timed_out
    end
|}.

(** An OpenSky state vector with no position (the provider sends [null]
    for both coordinates of an aircraft it has no fix for). *)
Definition state_no_position : value :=
  Arr [ Str "3c6444"; Str "DLH9KL  "; Str "Germany"; Num 1700000000;
        Num 1700000000; Null; Null; Num 300; Bool false; Num 100; Num 90;
        Num 0; Null; Num 320; Str "1000"; Bool false; Num 0 ].

(** ADSB.lol is unreachable; OpenSky answers with that one state. *)
Definition adsb_down : Network := {|
  axios_result := fun _ req =>
    match req with
    | OpenSkyStates _ _ _ _ _ =>
        ok (Obj [("time", Num 1700000000); ("states", Arr [state_no_position])])
    | _ => timed_out
    end
|}.

(** OpenSky answers 429 with a retry-after of 600 seconds. *)
Definition opensky_limited : Network := {|
  axios_result := fun _ req =>
    match req with
    | OpenSkyStates _ _ _ _ _ =>
        too_many_requests [(retry_after_header, "600")]
    | _ => timed_out
    end
|}.

Definition leg (airport iata : string) : value :=
  Obj [ ("airport", Str airport); ("iata", Str iata);
        ("scheduled", Str "2026-11-03T10:00:00+00:00"); ("estimated", Null);
        ("actual", Null); ("terminal", Str "1"); ("gate", Null) ].

(** A well-formed schedule entry; the provider sends [null] for an
    unknown aircraft. *)
Definition flight_complete : value :=
  Obj [ ("flight_status", Str "scheduled");
        ("departure", leg "Frankfurt International Airport" "FRA");
        ("arrival", leg "Heathrow" "LHR");
        ("airline", Obj [("name", Str "Lufthansa"); ("iata", Str "LH")]);
        ("flight", Obj [("iata", Str "LH900"); ("icao", Str "DLH900")]);
        ("aircraft", Null) ].

(** The same entry without its [airline] member. *)
Definition flight_no_airline : value :=
  Obj [ ("flight_status", Str "scheduled");
        ("departure", leg "Frankfurt International Airport" "FRA");
        ("arrival", leg "Heathrow" "LHR");
        ("flight", Obj [("iata", Str "LH902"); ("icao", Str "DLH902")]);
        ("aircraft", Null) ].

Definition schedules_of (entries : list value) : Network := {|
  axios_result := fun _ req =>
    match req with
    | AviationStackFlights _ _ _ => ok (Obj [("data", Arr entries)])
    | _ => timed_out
    end
|}.

End Sample.

(* ================================================================= *)
(** ** The constructor and further definitions *)

(** Whether a list of characters starts with another. *)
Fixpoint starts_with (prefix s : list ascii) : bool :=
  match prefix, s with
  | [], _ => true
  | p :: prefix', c :: s' => Ascii.eqb p c && starts_with prefix' s'
  | _ :: _, [] => false
  end.

(** [parseFloat(string)]: the Number of the longest prefix, after leading
    white space, that reads as a decimal literal; NaN when there is none. *)
Definition parseFloat (input : string) : float :=
  let s := Latin1.trim_start_list (list_ascii_of_string input) in
  let '(neg, body) := Latin1.strip_sign s in
  if starts_with Latin1.Infinity_text body
  then (if neg then neg_infinity else infinity)
  else
    let '(ip, ilen, rest) := Latin1.digits 10 body in
    let '(m, flen, rest) :=
      match rest with
      | "."%char :: rest' => Latin1.digits_from 10 rest' ip 0%nat
      | _ => (ip, 0%nat, rest)
      end in
    match (ilen + flen)%nat with
    | O => nan
    | _ =>
        let e :=
          match rest with
          | c :: rest' =>
              if (Ascii.eqb c "e" || Ascii.eqb c "E")%bool then
                let '(eneg, digits_text) := Latin1.strip_sign rest' in
                let '(n, len, _) := Latin1.digits 10 digits_text in
                match len with
                | O => 0%Z
                | _ => if eneg then Z.opp (Z.of_N n) else Z.of_N n
                end
              else 0%Z
          | [] => 0%Z
          end in
        Latin1.float_of_decimal neg m (e - Z.of_nat flen)
    end.

(** [process.env] after [dotenv] has loaded: a variable is a String, or
    not set. *)
Definition Env : Type := string -> option string.

(** [process.env.X || fallback]. *)
Definition env_or (v : option string) (fallback : string) : string :=
  match v with
  | Some s => if String.eqb s "" then fallback else s
  | None => fallback
  end.

(** [new APIClient()] (lines 10-36). *)
Definition new_APIClient (env : Env) : APIClient := {|
  aviationStackKey := env "AVIATIONSTACK_API_KEY";
  openSkyUsername := env "OPENSKY_USERNAME";
  openSkyPassword := env "OPENSKY_PASSWORD";
  useAdsbLol :=
    negb (match env "USE_ADSB_LOL" with
          | Some s => String.eqb s "false"
          | None => false
          end);
  airportICAO := env_or (env "AIRPORT_ICAO") "EDDF";
  airportLat := parseFloat (env_or (env "AIRPORT_LATITUDE") "50.0379");
  airportLon := parseFloat (env_or (env "AIRPORT_LONGITUDE") "8.5622");
  airportRadius := parseFloat (env_or (env "AIRPORT_ZONE_RADIUS_KM") "10");
  lastOpenSkyCall := 0;
  openSkyMinInterval := 10000;
  openSkyRetryAfter := 0;
  openSkyDisabledUntil := 0
|}.

(** The fields that configure the client, as opposed to the three the
    rate governor writes. *)
Definition same_config (c c' : APIClient) : Prop :=
  aviationStackKey c' = aviationStackKey c
  /\ openSkyUsername c' = openSkyUsername c
  /\ openSkyPassword c' = openSkyPassword c
  /\ useAdsbLol c' = useAdsbLol c
  /\ airportICAO c' = airportICAO c
  /\ airportLat c' = airportLat c
  /\ airportLon c' = airportLon c
  /\ airportRadius c' = airportRadius c
  /\ openSkyMinInterval c' = openSkyMinInterval c.

(** [undefined] or [null]. *)
Definition nullish (v : value) : bool :=
  match v with
  | Undefined | Null => true
  | _ => false
  end.

(** A member that can itself be read from: present and not [null]. *)
Definition has_member (v : value) (k : string) : bool :=
  match get_prop v k with
  | Return x => negb (nullish x)
  | Throw _ => false
  end.

(** What reading the member [k] of a value that is not [undefined] or
    [null] gives. *)
Definition member (v : value) (k : string) : value :=
  match v with
  | Obj ps => match lookup k ps with Some x => x | None => Undefined end
  | _ => Undefined
  end.

(** A variable of the environment that is not set, or set to the empty
    string. *)
Definition unset_or_empty (v : option string) : bool :=
  match v with
  | Some s => String.eqb s ""
  | None => true
  end.

(** A numeric slot of an OpenSky state vector: a JSON number, or [null]. *)
Definition slot (o : option float) : value :=
  match o with
  | Some f => Num f
  | None => Null
  end.

(** The records a thrown exception or a returned list stand for, once the
    adapter's handler has turned a throw into the empty list. *)
Definition or_empty {A} (o : Outcome (list A)) : list A :=
  match o with
  | Return l => l
  | Throw _ => []
  end.

(** From the body of an OpenSky response to the records (lines 211-237). *)
Definition opensky_flights (now : DateString) (response_data : value)
  : Outcome (list Flight) :=
  if negb (ToBoolean response_data) then Return [] else
  states <~ get_prop response_data "states" ;;
  if negb (ToBoolean states) then Return [] else
  match states with
  | Arr l => mapE (opensky_flight now) l
  | _ => Throw TypeError
  end.

(** From the body of an AviationStack response to the schedules
    (lines 297-333). *)
Definition aviationstack_schedules (response_data : value)
  : Outcome (list Schedule.t) :=
  if negb (ToBoolean response_data) then Return [] else
  flights_data <~ get_prop response_data "data" ;;
  if negb (ToBoolean flights_data) then Return [] else
  match flights_data with
  | Arr l => mapE schedule_of l
  | _ => Throw TypeError
  end.

(** The request of the schedule adapter for a configured key (lines
    271-295). *)
Definition aviationstack_request (c : APIClient) (key : string) : Request :=
  AviationStackFlights key (iataCode c) 100.

(** The two candidate requests of the ADSB.lol adapter (lines 53-59). *)
Definition adsb_endpoints (c : APIClient) : list Request :=
  [ AdsbPoint (airportLat c) (airportLon c) (airportRadius c * 0.539957)%float;
    AdsbLatLonDist (airportLat c) (airportLon c) (airportRadius c * 0.539957)%float ].

(** The language-level operations throw nothing but a [TypeError]. *)
Definition only_TypeError {A} (o : Outcome A) : Prop :=
  forall e, o = Throw e -> e = TypeError.

(** The position part of [getAllFlights] (lines 345-359). *)
Definition live_positions `{host : Host} `{net : Network} : M (list Flight) :=
  c <- this ;;
  if useAdsbLol c then
    from_adsb <- getAdsbLolFlights ;;
    if Nat.eqb (List.length from_adsb) 0 then getOpenSkyFlights
    else ret from_adsb
  else getOpenSkyFlights.

Module Fixture.

(** A world around a given client. *)
Definition world_of (c : APIClient) (now : float) : World :=
  {| client := c; clock := now; requests := []; invoked := [] |}.

(** OpenSky answers 429 with a given retry-after header. *)
Definition opensky_429 (text : string) : Network := {|
  axios_result := fun _ req =>
    match req with
    | OpenSkyStates _ _ _ _ _ =>
        Sample.too_many_requests [(retry_after_header, text)]
    | _ => Sample.timed_out
    end
|}.

(** A state vector with a position, an altitude of 1000 m and a speed of
    100 m/s. *)
Definition state_airborne : value :=
  Arr [ Str "4b1805"; Str "SWR8T   "; Str "Switzerland"; Num 1700000000;
        Num 1700000000; Num 8.55; Num 50.03; Num 1000; Bool false; Num 100;
        Num 270; Num (-5); Null; Num 1050; Null; Bool false; Num 0 ].

(** An environment that sets some variables. *)
Definition env_of (vars : list (string * string)) : Env :=
  fun name => lookup name vars.

End Fixture.

(* ================================================================= *)
(** ** Facts about binary64 arithmetic *)

Module FloatFacts.

Local Open Scope float_scope.

Lemma SFopp_involutive x : SFopp (SFopp x) = x.
Proof. destruct x as [s|s| |s m e]; cbn; rewrite ?negb_involutive; reflexivity. Qed.

Lemma round_aux_negb s m e l :
  binary_round_aux prec emax (negb s) m e l
  = SFopp (binary_round_aux prec emax s m e l).
Proof.
  unfold binary_round_aux.
  destruct (shr_fexp prec emax m e l) as [mrs e1].
  destruct (shr_fexp prec emax _ e1 loc_Exact) as [mrs' e2].
  destruct (shr_m mrs'); [reflexivity| |reflexivity].
  destruct (Z.leb e2 (emax - prec)); reflexivity.
Qed.

Lemma round_negb s m e :
  binary_round prec emax (negb s) m e = SFopp (binary_round prec emax s m e).
Proof.
  unfold binary_round.
  destruct (shl_align m e _) as [mz ez]. apply round_aux_negb.
Qed.

Lemma normalize_opp m e :
  m <> 0%Z ->
  binary_normalize prec emax (- m) e false
  = SFopp (binary_normalize prec emax m e false).
Proof.
  destruct m as [|p|p]; intros Hm; [congruence| |]; cbn [Z.opp binary_normalize].
  - apply (round_negb false).
  - rewrite <- (round_negb true). reflexivity.
Qed.

Lemma SFmul_opp_l x y :
  SFmul prec emax (SFopp x) y = SFopp (SFmul prec emax x y).
Proof.
  destruct x as [sx|sx| |sx mx ex], y as [sy|sy| |sy my ey]; cbn [SFopp SFmul];
    try reflexivity; try (destruct sx, sy; reflexivity).
  rewrite <- round_aux_negb. destruct sx, sy; reflexivity.
Qed.

Lemma SFmul_comm x y : SFmul prec emax x y = SFmul prec emax y x.
Proof.
  destruct x as [sx|sx| |sx mx ex], y as [sy|sy| |sy my ey]; cbn [SFmul];
    try reflexivity; try (destruct sx, sy; reflexivity).
  rewrite Pos.mul_comm, Z.add_comm, xorb_comm. reflexivity.
Qed.

Lemma SFdiv_opp_l x y :
  SFdiv prec emax (SFopp x) y = SFopp (SFdiv prec emax x y).
Proof.
  destruct x as [sx|sx| |sx mx ex], y as [sy|sy| |sy my ey]; cbn [SFopp SFdiv];
    try reflexivity; try (destruct sx, sy; reflexivity).
  destruct (SFdiv_core_binary prec emax (Z.pos mx) ex (Z.pos my) ey) as [[mz ez] lz].
  rewrite <- round_aux_negb. destruct sx, sy; reflexivity.
Qed.

(** Subtraction is antisymmetric, except that an exact cancellation gives
    [+0] in both orders. *)
Lemma SFsub_antisym x y :
  SFsub prec emax x y = SFopp (SFsub prec emax y x)
  \/ (SFsub prec emax x y = S754_zero false
      /\ SFsub prec emax y x = S754_zero false).
Proof.
  destruct x as [sx|sx| |sx mx ex], y as [sy|sy| |sy my ey]; cbn [SFopp SFsub];
    try (left; reflexivity);
    try (destruct sx, sy; cbn; auto; fail).
  rewrite (Z.min_comm ey ex).
  set (ez := Z.min ex ey).
  set (a := cond_Zopp sx (Z.pos (fst (shl_align mx ex ez)))).
  set (b := cond_Zopp sy (Z.pos (fst (shl_align my ey ez)))).
  destruct (Z.eq_dec (a - b) 0) as [E|E].
  - right. replace (b - a)%Z with 0%Z by lia. rewrite E. split; reflexivity.
  - left. replace (a - b)%Z with (- (b - a))%Z by lia.
    apply normalize_opp. lia.
Qed.

Lemma opp_involutive x : - - x = x.
Proof. apply Prim2SF_inj. rewrite !opp_spec. apply SFopp_involutive. Qed.

Lemma mul_opp_l x y : (- x) * y = - (x * y).
Proof.
  apply Prim2SF_inj. rewrite opp_spec, !mul_spec, opp_spec. apply SFmul_opp_l.
Qed.

Lemma mul_comm x y : x * y = y * x.
Proof. apply Prim2SF_inj. rewrite !mul_spec. apply SFmul_comm. Qed.

Lemma mul_opp_r x y : x * (- y) = - (x * y).
Proof. rewrite (mul_comm x (- y)), mul_opp_l, (mul_comm y x). reflexivity. Qed.

Lemma div_opp_l x y : (- x) / y = - (x / y).
Proof.
  apply Prim2SF_inj. rewrite opp_spec, !div_spec, opp_spec. apply SFdiv_opp_l.
Qed.

Lemma sub_antisym x y : x - y = - (y - x) \/ (x - y = 0 /\ y - x = 0).
Proof.
  destruct (SFsub_antisym (Prim2SF x) (Prim2SF y)) as [H|[H1 H2]].
  - left. apply Prim2SF_inj. rewrite opp_spec, !sub_spec. exact H.
  - right. split; apply Prim2SF_inj; rewrite sub_spec; assumption.
Qed.

Lemma square_opp s : (- s) * (- s) = s * s.
Proof. rewrite mul_opp_l, mul_opp_r, opp_involutive. reflexivity. Qed.

Lemma scaled_square_opp p s : p * (- s) * (- s) = p * s * s.
Proof. rewrite !mul_opp_r, mul_opp_l, opp_involutive. reflexivity. Qed.

End FloatFacts.

Module FloatOrder.

Local Open Scope float_scope.

Lemma SFcompare_antisym x y :
  SFcompare y x = option_map CompOpp (SFcompare x y).
Proof.
  destruct x as [sx|sx| |sx mx ex], y as [sy|sy| |sy my ey]; cbn;
    try reflexivity; try (destruct sx; reflexivity);
    try (destruct sy; reflexivity); try (destruct sx, sy; reflexivity).
  assert (P : Pos.compare_cont Eq my mx = CompOpp (Pos.compare_cont Eq mx my))
    by (symmetry; apply (Pos.compare_cont_antisym mx my Eq)).
  destruct sx, sy; try reflexivity;
    rewrite (Z.compare_antisym ex ey); destruct (ex ?= ey)%Z; cbn;
    rewrite ?P, ?CompOpp_involutive; reflexivity.
Qed.

Lemma SFcompare_None x y :
  SFcompare x y = None -> x = S754_nan \/ y = S754_nan.
Proof.
  destruct x as [sx|sx| |sx mx ex], y as [sy|sy| |sy my ey]; cbn;
    intros H; try discriminate H; auto.
Qed.

Lemma is_number_of_not_nan f : is_nan f = false -> is_number f.
Proof.
  unfold is_nan, is_number. rewrite eqb_spec. unfold SFeqb.
  intros H E. rewrite E in H. discriminate H.
Qed.

Lemma is_number_abs f : is_number f -> is_number (abs f).
Proof.
  unfold is_number. rewrite abs_spec.
  destruct (Prim2SF f); cbn; congruence.
Qed.

(** Two Numbers are comparable: what is not above is below or equal. *)
Lemma leb_of_not_ltb x y :
  is_number x -> is_number y -> (y <? x) = false -> (x <=? y) = true.
Proof.
  unfold is_number. rewrite ltb_spec, leb_spec. unfold SFltb, SFleb.
  intros Hx Hy. rewrite (SFcompare_antisym (Prim2SF x) (Prim2SF y)).
  destruct (SFcompare (Prim2SF x) (Prim2SF y)) as [[| |]|] eqn:E; cbn;
    try reflexivity; try discriminate.
  apply SFcompare_None in E. tauto.
Qed.

End FloatOrder.

(* ================================================================= *)
(** ** Runs in the monad *)

Section Runs.
Context `{host : Host} `{net : Network}.

Lemma quiet_ret {A} (a : A) : quiet (ret a).
Proof. intro w; reflexivity. Qed.

Lemma quiet_throw {A} (e : Error) : quiet (@throw A e).
Proof. intro w; reflexivity. Qed.

Lemma quiet_lift {A} (o : Outcome A) : quiet (lift o).
Proof. intro w; reflexivity. Qed.

Lemma quiet_this : quiet this.
Proof. intro w; reflexivity. Qed.

Lemma quiet_Date_now : quiet Date_now.
Proof. intro w; reflexivity. Qed.

Lemma quiet_new_Date : quiet new_Date_toISOString.
Proof. intro w; reflexivity. Qed.

Lemma quiet_set_client c : quiet (set_client c).
Proof. intro w; reflexivity. Qed.

Lemma quiet_axios_get req : quiet (axios_get req).
Proof.
  intro w. unfold axios_get.
  destruct (axios_result _ req); reflexivity.
Qed.

Lemma quiet_bind {A B} (m : M A) (k : A -> M B) :
  quiet m -> (forall a, quiet (k a)) -> quiet (bind m k).
Proof.
  intros Hm Hk w. unfold bind. specialize (Hm w).
  destruct (m w) as [[a|e] w1]; cbn in *; [|assumption].
  rewrite Hk. assumption.
Qed.

Lemma quiet_try_catch {A} (m : M A) (h : Error -> M A) :
  quiet m -> (forall e, quiet (h e)) -> quiet (try_catch m h).
Proof.
  intros Hm Hh w. unfold try_catch. specialize (Hm w).
  destruct (m w) as [[a|e] w1]; cbn in *; [assumption|].
  rewrite Hh. assumption.
Qed.

Lemma total_ret {A} (a : A) : total (ret a).
Proof. intro w; exists a; reflexivity. Qed.

Lemma total_try_catch {A} (m : M A) (h : Error -> M A) :
  (forall e, total (h e)) -> total (try_catch m h).
Proof.
  intros Hh w. unfold try_catch.
  destruct (m w) as [[a|e] w1]; [exists a; reflexivity|apply Hh].
Qed.

Lemma total_bind {A B} (m : M A) (k : A -> M B) :
  total m -> (forall a, total (k a)) -> total (bind m k).
Proof.
  intros Hm Hk w. unfold bind. destruct (Hm w) as [a Ha].
  destruct (m w) as [[a'|e] w1]; cbn in Ha; [apply Hk|discriminate].
Qed.

Lemma total_set_client c : total (set_client c).
Proof. intro w; exists tt; reflexivity. Qed.

Lemma total_this : total this.
Proof. intro w; eexists; reflexivity. Qed.

Lemma total_Date_now : total Date_now.
Proof. intro w; eexists; reflexivity. Qed.

Lemma total_enter a : total (enter a).
Proof. intro w; exists tt; reflexivity. Qed.

Lemma quiet_first_response endpoints : quiet (first_response endpoints).
Proof.
  induction endpoints as [|url rest IH]; cbn [first_response].
  - apply quiet_ret.
  - apply quiet_try_catch; [|intros _; exact IH].
    apply quiet_bind; [apply quiet_axios_get|intro; apply quiet_ret].
Qed.

End Runs.

Create HintDb runs.

#[export] Hint Resolve quiet_ret quiet_throw quiet_lift quiet_this quiet_Date_now
  quiet_new_Date quiet_set_client quiet_axios_get quiet_first_response
  total_ret total_set_client total_this total_Date_now total_enter : runs.

(** Splits a monadic term along its binds, handlers and case analyses. *)
Ltac runs :=
  repeat first
    [ progress auto with runs
    | apply quiet_bind; [|intro]
    | apply quiet_try_catch; [|intro]
    | apply total_bind; [|intro]
    | apply total_try_catch; intro
    | match goal with
      | |- quiet (match ?x with _ => _ end) => destruct x
      | |- total (match ?x with _ => _ end) => destruct x
      | |- quiet (let _ := _ in _) => cbv zeta
      end ].

Section RunsOfAdapters.
Context `{host : Host} `{net : Network}.

Lemma opensky_catch_quiet e : quiet (opensky_catch e).
Proof. unfold opensky_catch. runs. Qed.

Lemma opensky_catch_total e : total (opensky_catch e).
Proof. unfold opensky_catch. runs. Qed.

(** Every adapter returns (it never throws) and records exactly its own
    entry. *)
Lemma adapter_run {A} (a : Adapter) (body : M (list A)) (h : Error -> M (list A)) :
  quiet body -> (forall e, quiet (h e)) -> (forall e, total (h e)) ->
  forall w, exists l w',
    (enter a ;;; try_catch body h) w = (Return l, w')
    /\ invoked w' = invoked w ++ [a].
Proof.
  intros Hb Hq Ht w.
  assert (Q : quiet (try_catch body h)) by (apply quiet_try_catch; assumption).
  assert (T : total (try_catch body h)) by (apply total_try_catch; assumption).
  unfold bind, enter.
  set (w1 := {| client := client w; clock := clock w; requests := requests w;
                invoked := invoked w ++ [a] |}).
  specialize (Q w1). destruct (T w1) as [l Hl].
  destruct (try_catch body h w1) as [o w']; cbn in *. subst o.
  exists l, w'. split; [reflexivity|exact Q].
Qed.

Lemma getAdsbLolFlights_run w :
  exists l w', getAdsbLolFlights w = (Return l, w')
               /\ invoked w' = invoked w ++ [AdsbLol].
Proof. apply adapter_run; [runs| |]; intros; runs. Qed.

Lemma getOpenSkyFlights_run w :
  exists l w', getOpenSkyFlights w = (Return l, w')
               /\ invoked w' = invoked w ++ [OpenSky].
Proof.
  apply adapter_run;
    [runs | apply opensky_catch_quiet | apply opensky_catch_total].
Qed.

Lemma getAviationStackFlights_run w :
  exists l w', getAviationStackFlights w = (Return l, w')
               /\ invoked w' = invoked w ++ [AviationStack].
Proof. apply adapter_run; [runs| |]; intros; runs. Qed.

End RunsOfAdapters.

(* ================================================================= *)
(** ** Lists in the exception monad *)

Lemma bindE_Return {A B} (m : Outcome A) (k : A -> Outcome B) (b : B) :
  bindE m k = Return b -> exists a, m = Return a /\ k a = Return b.
Proof. destruct m as [a|e]; cbn; [eauto|discriminate]. Qed.

(** Breaks a hypothesis [x <~ m ;; k = Return b] into its steps. *)
Ltac steps H :=
  repeat match type of H with
         | bindE _ _ = Return _ =>
             let a := fresh "v" in
             let Ha := fresh "E" in
             apply bindE_Return in H; destruct H as (a & Ha & H)
         end.

Lemma filterE_drop {A} (f : A -> Outcome bool) (pre post : list A) (a : A) :
  f a = Return false ->
  filterE f (pre ++ a :: post) = filterE f (pre ++ post).
Proof.
  intros Ha. induction pre as [|x pre IH]; cbn [app filterE].
  - rewrite Ha. cbn. destruct (filterE f post); reflexivity.
  - rewrite IH. reflexivity.
Qed.

Lemma filterE_In {A} (f : A -> Outcome bool) (l kept : list A) :
  filterE f l = Return kept ->
  forall a, In a kept -> In a l /\ f a = Return true.
Proof.
  revert kept. induction l as [|x l IH]; cbn [filterE]; intros kept H a Ha.
  - injection H as <-. destruct Ha.
  - steps H. injection H as <-.
    match goal with E : filterE f l = Return ?k |- _ => specialize (IH k E a) end.
    match goal with E : f x = Return ?b |- _ => destruct b end.
    + destruct Ha as [<-|Ha]; [split; [left; reflexivity|assumption]|].
      destruct (IH Ha). split; [right|]; assumption.
    + destruct (IH Ha). split; [right|]; assumption.
Qed.

Lemma mapE_In {A B} (f : A -> Outcome B) (l : list A) (out : list B) :
  mapE f l = Return out ->
  forall b, In b out -> exists a, In a l /\ f a = Return b.
Proof.
  revert out. induction l as [|x l IH]; cbn [mapE]; intros out H b Hb.
  - injection H as <-. destruct Hb.
  - steps H. injection H as <-.
    destruct Hb as [<-|Hb].
    + exists x. split; [left; reflexivity|assumption].
    + match goal with E : mapE f l = Return ?k |- _ =>
        destruct (IH k E b Hb) as (a & Ia & Fa) end.
      exists a. split; [right|]; assumption.
Qed.

Lemma mapE_Throw {A B} (f : A -> Outcome B) (l : list A) (a : A) (e : Error) :
  In a l -> f a = Throw e -> exists e', mapE f l = Throw e'.
Proof.
  induction l as [|x l IH]; cbn [mapE In]; [tauto|].
  intros [<-|Ha] Hf.
  - rewrite Hf. eexists. reflexivity.
  - destruct (IH Ha Hf) as (e' & He').
    destruct (f x); cbn; [rewrite He'|]; eexists; reflexivity.
Qed.

(* ================================================================= *)
(** ** The position adapters: filtering and normalization *)

Lemma zero_is_falsy (z : float) : is_zero z = true -> ToBoolean (Num z) = false.
Proof. intros Hz. unfold ToBoolean. rewrite Hz. reflexivity. Qed.

Lemma adsb_keep_zero (aircraft : value) (z : float) :
  is_zero z = true ->
  get_prop aircraft "lat" = Return (Num z) \/ get_prop aircraft "lon" = Return (Num z) ->
  adsb_keep aircraft = Return false.
Proof.
  intros Hz H. unfold adsb_keep.
  destruct aircraft as [| |b|f|s|l|ps];
    try (destruct H as [H|H]; discriminate H).
  cbn [get_prop bindE] in *.
  destruct H as [H|H]; injection H as H; rewrite H.
  - rewrite (zero_is_falsy z Hz). reflexivity.
  - rewrite (zero_is_falsy z Hz). cbn [negb].
    destruct (negb (ToBoolean _)); reflexivity.
Qed.

Lemma adsb_flights_drop (now : DateString) (pre post : list value) (aircraft : value) :
  adsb_keep aircraft = Return false ->
  adsb_flights now (Arr (pre ++ aircraft :: post)) = adsb_flights now (Arr (pre ++ post)).
Proof.
  intros Hk. unfold adsb_flights. cbn [bindE length_is_zero].
  rewrite (filterE_drop adsb_keep pre post aircraft Hk).
  replace (Nat.eqb (List.length (pre ++ aircraft :: post)) 0) with false
    by (rewrite length_app; cbn; symmetry; apply Nat.eqb_neq; lia).
  destruct (pre ++ post) as [|x l]; reflexivity.
Qed.

(** C10. A raw entry whose latitude or longitude is exactly zero is dropped
    by [getAdsbLolFlights]: the filter rejects it, and the records made of a
    response are those made of the response without it, whether the
    aircraft come as a bare array or under [ac]. *)
Theorem zero_coordinate_dropped
    (now : DateString) (pre post : list value) (aircraft : value) (z : float) :
  is_zero z = true ->
  get_prop aircraft "lat" = Return (Num z) \/ get_prop aircraft "lon" = Return (Num z) ->
  adsb_keep aircraft = Return false
  /\ adsb_flights now (Arr (pre ++ aircraft :: post))
     = adsb_flights now (Arr (pre ++ post))
  /\ adsb_flights now (Obj [("ac", Arr (pre ++ aircraft :: post))])
     = adsb_flights now (Obj [("ac", Arr (pre ++ post))]).
Proof.
  intros Hz H. pose proof (adsb_keep_zero aircraft z Hz H) as Hk.
  split; [exact Hk|]. split; [apply adsb_flights_drop; exact Hk|].
  pose proof (adsb_flights_drop now pre post aircraft Hk) as D.
  unfold adsb_flights in *. cbn [get_prop lookup String.eqb Ascii.eqb Bool.eqb bindE] in *.
  unfold js_or. cbn [ToBoolean]. exact D.
Qed.

Lemma zero_coordinate_dropped_witness :
  get_prop Sample.aircraft_equator "lat" = Return (Num 0)
  /\ adsb_flights (toISOString 0) (Arr [Sample.aircraft_equator; Sample.aircraft_300])
     = adsb_flights (toISOString 0) (Arr [Sample.aircraft_300])
  /\ exists r, adsb_flights (toISOString 0)
                 (Arr [Sample.aircraft_equator; Sample.aircraft_300]) = Return [r]
               /\ latitude r = Num 50.05.
Proof.
  split; [reflexivity|]. split.
  - exact (proj1 (proj2 (@zero_coordinate_dropped (toISOString 0) []
                           [Sample.aircraft_300] Sample.aircraft_equator 0%float
                           eq_refl (or_introl eq_refl)))).
  - eexists. split; [vm_compute; reflexivity|reflexivity].
Defined.

Lemma js_mul_number (v : value) (c a : float) :
  js_mul v c = Return a -> a = (number_of v * c)%float.
Proof.
  unfold js_mul, number_of. destruct (ToNumber v) as [f|e]; cbn [bindE]; intros H;
    [injection H as <-; reflexivity|discriminate H].
Qed.

Lemma js_lt_number (v : value) (c : float) (b : bool) :
  js_lt v c = Return b -> b = (number_of v <? c)%float.
Proof.
  unfold js_lt, number_of. destruct (ToNumber v) as [f|e]; cbn [bindE]; intros H;
    [injection H as <-; reflexivity|discriminate H].
Qed.

(** C8, as the code has it. For every raw entry [getAdsbLolFlights]
    normalizes, the record has for altitude the barometric altitude times
    3.28084 when that field is truthy (not absent, [null], [false], zero
    or the empty String), otherwise the geometric altitude times 3.28084
    when that one is truthy, otherwise 0; and its [on_ground] flag is true
    exactly when one of the two fields is below 100 as JavaScript compares
    it.  In the product and in the comparison a field that is not a Number
    is converted to one: [null] to 0, an absent field or a String such as
    [ground] to NaN. *)
Theorem altitude_and_ground_flag
    (now : DateString) (aircraft alt_baro alt_geom : value) (r : Flight) :
  get_prop aircraft "alt_baro" = Return alt_baro ->
  get_prop aircraft "alt_geom" = Return alt_geom ->
  adsb_flight now aircraft = Return r ->
  altitude r = Num (spec_altitude (truthy_number alt_baro) (truthy_number alt_geom))
  /\ on_ground r
     = Bool ((number_of alt_baro <? 100) || (number_of alt_geom <? 100))%float.
Proof.
  intros Hb Hg H. unfold adsb_flight in H. steps H.
  repeat match goal with
         | E : get_prop aircraft "alt_baro" = Return ?v |- _ =>
             rewrite Hb in E; injection E as <-
         | E : get_prop aircraft "alt_geom" = Return ?v |- _ =>
             rewrite Hg in E; injection E as <-
         end.
  injection H as <-. cbn [altitude on_ground]. split.
  - f_equal. unfold truthy_number, spec_altitude.
    match goal with
    | E : (if ToBoolean alt_baro then _ else _) = Return ?a |- _ =>
        destruct (ToBoolean alt_baro);
          [exact (js_mul_number _ _ _ E)|];
        destruct (ToBoolean alt_geom);
          [exact (js_mul_number _ _ _ E)|injection E as <-; reflexivity]
    end.
  - f_equal.
    match goal with
    | E : js_lt alt_baro 100 = Return ?b |- _ =>
        apply js_lt_number in E; rewrite <- E; destruct b
    end.
    + match goal with
      | E : Return true = Return ?g |- _ => injection E as <-
      end. reflexivity.
    + match goal with
      | E : bindE (js_lt alt_geom 100) _ = Return ?g |- _ =>
          apply bindE_Return in E; destruct E as (low & E & E');
          apply js_lt_number in E; injection E' as <-; rewrite <- E
      end.
      rewrite orb_false_r. reflexivity.
Qed.

Lemma altitude_and_ground_flag_witness :
  exists r : Flight,
    adsb_flight (toISOString 0) Sample.aircraft_300 = Return r
    /\ altitude r = Num 984.252
    /\ on_ground r = Bool false.
Proof.
  eexists. split; [vm_compute; reflexivity|].
  exact (@altitude_and_ground_flag (toISOString 0) Sample.aircraft_300
           (Num 300) Undefined _ eq_refl eq_refl eq_refl).
Defined.

(** C8 as stated fails, twice.  An entry whose barometric altitude is
    present and exactly 0, beside a geometric altitude of 500, gets the
    geometric altitude converted, where the stated rule gives 0.  And an
    entry at 300 whose geometric altitude is [null] is flagged as on the
    ground, no altitude of it being below 100: the comparison reads [null]
    as 0. *)
Lemma altitude_and_ground_counterexample :
  (get_prop Sample.aircraft_sea_level "alt_baro" = Return (Num 0)
   /\ get_prop Sample.aircraft_sea_level "alt_geom" = Return (Num 500)
   /\ exists r : Flight,
        adsb_flight (toISOString 0) Sample.aircraft_sea_level = Return r
        /\ altitude r = Num (500 * 3.28084)
        /\ spec_altitude (Some 0%float) (Some 500%float) = 0%float
        /\ (500 * 3.28084 =? spec_altitude (Some 0%float) (Some 500%float))%float
           = false)
  /\ (get_prop Sample.aircraft_null_geom "alt_baro" = Return (Num 300)
      /\ get_prop Sample.aircraft_null_geom "alt_geom" = Return Null
      /\ exists r : Flight,
           adsb_flight (toISOString 0) Sample.aircraft_null_geom = Return r
           /\ altitude r = Num 984.252
           /\ on_ground r = Bool true
           /\ (below_100 (Some 300%float) || below_100 None)%bool = false).
Proof.
  split.
  - split; [reflexivity|]. split; [reflexivity|].
    eexists. split; [vm_compute; reflexivity|].
    split; [reflexivity|]. split; reflexivity.
  - split; [reflexivity|]. split; [reflexivity|].
    eexists. split; [vm_compute; reflexivity|].
    split; [reflexivity|]. split; reflexivity.
Qed.

(** *** The coordinate invariant *)

(** The record keeps the coordinates of the entry as they came. *)
Lemma adsb_flight_position (now : DateString) (aircraft : value) (r : Flight) :
  adsb_flight now aircraft = Return r ->
  get_prop aircraft "lat" = Return (latitude r)
  /\ get_prop aircraft "lon" = Return (longitude r).
Proof.
  intros H. unfold adsb_flight in H. steps H. injection H as <-.
  cbn [latitude longitude]. split; assumption.
Qed.

Lemma opensky_flight_position (now : DateString) (state : value) (r : Flight) :
  opensky_flight now state = Return r ->
  get_index state 6 = Return (latitude r)
  /\ get_index state 5 = Return (longitude r).
Proof.
  intros H. unfold opensky_flight in H. steps H. injection H as <-.
  cbn [latitude longitude]. split; assumption.
Qed.

Lemma adsb_keep_in_range (aircraft lat lon : value) :
  get_prop aircraft "lat" = Return lat ->
  get_prop aircraft "lon" = Return lon ->
  numeric_or_missing lat = true -> numeric_or_missing lon = true ->
  adsb_keep aircraft = Return true ->
  exists la lo, lat = Num la /\ lon = Num lo
                /\ (abs la <=? 90)%float = true /\ (abs lo <=? 180)%float = true.
Proof.
  intros Hlat Hlon Nlat Nlon H. unfold adsb_keep in H.
  rewrite Hlat, Hlon in H. cbn [bindE] in H.
  destruct lat as [| |?|la|?|?|?]; try discriminate Nlat; try discriminate H.
  destruct (ToBoolean (Num la)) eqn:Tla; [|discriminate H]. cbn [negb] in H.
  destruct lon as [| |?|lo|?|?|?]; try discriminate Nlon; try discriminate H.
  destruct (ToBoolean (Num lo)) eqn:Tlo; [|discriminate H]. cbn [negb] in H.
  cbn [Math_abs ToNumber bindE] in H.
  destruct (90 <? abs la)%float eqn:Rla; [discriminate H|].
  destruct (180 <? abs lo)%float eqn:Rlo; [discriminate H|].
  exists la, lo. repeat split.
  - apply FloatOrder.leb_of_not_ltb; [| |exact Rla].
    + apply FloatOrder.is_number_abs, FloatOrder.is_number_of_not_nan.
      unfold ToBoolean in Tla. apply negb_true_iff, orb_false_iff in Tla. tauto.
    + vm_compute. discriminate.
  - apply FloatOrder.leb_of_not_ltb; [| |exact Rlo].
    + apply FloatOrder.is_number_abs, FloatOrder.is_number_of_not_nan.
      unfold ToBoolean in Tlo. apply negb_true_iff, orb_false_iff in Tlo. tauto.
    + vm_compute. discriminate.
Qed.

(** A first record whose call sign cannot be printed (here a registration
    that is an object with a member [toString]) makes the log of line 131
    throw: the batch is lost and [getAllFlights] falls back to OpenSky. *)
Lemma unprintable_callsign_empties_the_batch :
  let body :=
    Obj [("ac", Arr [Obj [ ("r", Obj [("toString", Num 1)]); ("hex", Str "abc123");
                           ("lat", Num 50.05); ("lon", Num 8.6) ]])] in
  let net : Network := {| axios_result := fun _ _ => Sample.ok body |} in
  adsb_flights (toISOString 0) body = Throw TypeError
  /\ fst (getAdsbLolFlights (net := net) Sample.start) = Return []
  /\ invoked (snd (getAllFlights (host := Sample.series_host) (net := net)
                     Sample.start))
     = [AdsbLol; OpenSky; AviationStack].
Proof. cbv zeta. repeat split; vm_compute; reflexivity. Qed.

Lemma adsb_flights_stages (now : DateString) (response_data : value) (out : list Flight) :
  adsb_flights now response_data = Return out ->
  out = [] \/ exists kept,
    filterE adsb_keep (aircraft_of response_data) = Return kept
    /\ mapE (adsb_flight now) kept = Return out.
Proof.
  intros H. unfold adsb_flights in H. steps H.
  match goal with E : length_is_zero ?d = Return ?b |- _ => destruct b end;
    [left; injection H as <-; reflexivity|].
  match goal with E : length_is_zero ?d = Return _ |- _ =>
    destruct d as [| |?|?|?|l|?]; try discriminate H end.
  steps H. injection H as <-. right. eexists. split; [|eassumption].
  unfold aircraft_of.
  destruct response_data as [| |?|?|?|l0|ps];
    match goal with
    | E : Return (Arr _) = Return (Arr _) |- _ => injection E as ->; assumption
    | E : bindE _ _ = Return _ |- _ => steps E
    | _ => idtac
    end;
    match goal with
    | E1 : get_prop _ "ac" = Return ?v, E2 : Return (js_or ?v (Arr [])) = Return (Arr l) |- _ =>
        rewrite E1; injection E2 as E2; unfold js_or in E2;
        destruct (ToBoolean v) eqn:T;
        [subst v; assumption
        |injection E2 as <-; destruct v; cbn in *; try discriminate; try assumption]
    end.
Qed.

(** Every record the ADSB.lol normalization makes of entries whose
    coordinates are JSON numbers, [null] or absent has Number coordinates
    within range: this adapter keeps the coordinate invariant. *)
Lemma adsb_flights_valid (now : DateString) (response_data : value) (out : list Flight) :
  forallb plain_position (aircraft_of response_data) = true ->
  adsb_flights now response_data = Return out ->
  forallb valid_coordinates out = true.
Proof.
  intros Hplain H.
  destruct (adsb_flights_stages now response_data out H) as [->|(kept & Hf & Hm)];
    [reflexivity|].
  apply forallb_forall. intros r Hr.
  destruct (mapE_In _ _ _ Hm r Hr) as (a & Ia & Fa).
  destruct (filterE_In _ _ _ Hf a Ia) as (Il & Ka).
  pose proof (proj1 (forallb_forall _ _) Hplain a Il) as Pa.
  destruct (adsb_flight_position now a r Fa) as (Hlat & Hlon).
  unfold plain_position in Pa. rewrite Hlat, Hlon in Pa.
  apply andb_true_iff in Pa. destruct Pa as (Nlat & Nlon).
  destruct (adsb_keep_in_range a _ _ Hlat Hlon Nlat Nlon Ka)
    as (la & lo & Ela & Elo & Rla & Rlo).
  unfold valid_coordinates. rewrite Ela, Elo, Rla, Rlo. reflexivity.
Qed.

Section AdsbInvariant.
Context `{host : Host} `{net : Network}.

Lemma first_response_origin (endpoints : list Request) (w w1 : World) (r : HttpResponse) :
  first_response endpoints w = (Return (Some r), w1) ->
  exists n req dt, axios_result n req = Fulfilled dt r.
Proof.
  revert w. induction endpoints as [|url rest IH]; cbn [first_response]; intros w H.
  - discriminate H.
  - unfold try_catch, bind, axios_get in H.
    destruct (axios_result (List.length (requests w)) url) as [dt r0|dt r0 msg] eqn:E.
    + cbn in H. injection H as -> _. eauto.
    + apply IH in H. exact H.
Qed.

(** The adapter is the fetch followed by [adsb_flights], a throw read as
    the empty list. *)
Lemma getAdsbLolFlights_records (w : World) :
  fst (getAdsbLolFlights w) =
    Return
      match first_response
              [ AdsbPoint (airportLat (client w)) (airportLon (client w))
                  (airportRadius (client w) * 0.539957)%float;
                AdsbLatLonDist (airportLat (client w)) (airportLon (client w))
                  (airportRadius (client w) * 0.539957)%float ]
              (entered AdsbLol w) with
      | (Return (Some r), w1) =>
          match adsb_flights (toISOString (clock w1)) (data r) with
          | Return l => l
          | Throw _ => []
          end
      | _ => []
      end.
Proof.
  unfold getAdsbLolFlights, bind, try_catch, enter, this, entered.
  cbn [client clock requests invoked].
  match goal with
  | |- context [first_response ?eps ?w0] =>
      destruct (first_response eps w0) as [[[r|]|e] w1]
  end; try reflexivity.
  unfold bind, new_Date_toISOString, lift.
  destruct (adsb_flights (toISOString (clock w1)) (data r)); reflexivity.
Qed.

(** [getAdsbLolFlights] keeps the coordinate invariant, whatever the
    network does, as long as the coordinates it is sent are JSON numbers,
    [null] or absent. *)
Lemma getAdsbLolFlights_valid (w w' : World) (out : list Flight) :
  (forall n req dt response,
      axios_result n req = Fulfilled dt response ->
      forallb plain_position (aircraft_of (data response)) = true) ->
  getAdsbLolFlights w = (Return out, w') ->
  forallb valid_coordinates out = true.
Proof.
  intros Hnet H.
  unfold getAdsbLolFlights, bind, try_catch, enter, this in H.
  cbn [client clock requests invoked] in H.
  match type of H with
  | context [first_response ?eps ?w0] =>
      destruct (first_response eps w0) as [[[r|]|e] w1] eqn:E
  end.
  - destruct (first_response_origin _ _ _ _ E) as (n & req & dt & Hr).
    unfold bind, new_Date_toISOString, lift in H.
    destruct (adsb_flights (toISOString (clock w1)) (data r)) as [l|e] eqn:F.
    + injection H as <- _.
      eapply adsb_flights_valid; [eapply Hnet; exact Hr|exact F].
    + injection H as <- _. reflexivity.
  - injection H as <- _. reflexivity.
  - injection H as <- _. reflexivity.
Qed.

End AdsbInvariant.

(** C1 (the code departs from it). [getOpenSkyFlights] emits a record for
    a state vector whose coordinates are [null]: the record's latitude and
    longitude are not Numbers, so the coordinate invariant fails on it.
    The adapter has no filter: a record carries whatever the state vector
    holds at indices 6 and 5 ([opensky_flight_position]). *)
Theorem opensky_emits_without_position `{host : Host} :
  exists (r : Flight) (w' : World),
    getOpenSkyFlights (net := Sample.adsb_down) Sample.start = (Return [r], w')
    /\ latitude r = Null
    /\ longitude r = Null
    /\ valid_coordinates r = false.
Proof.
  eexists _, _. split; [vm_compute; reflexivity|].
  repeat split.
Qed.

(* ================================================================= *)
(** ** The rate governor of the quota-limited feed *)

Section Governor.
Context `{host : Host} `{net : Network}.

(** A call the governor refuses returns the empty list and touches
    nothing but the invocation record. *)
Lemma refused_run (w : World) :
  governor (clock w) (client w) <> Available ->
  getOpenSkyFlights w = (Return [], entered OpenSky w).
Proof.
  intros Hg. unfold getOpenSkyFlights, bind, try_catch, enter, Date_now, this.
  cbn [client clock requests invoked].
  destruct (governor (clock w) (client w)); try reflexivity.
  congruence.
Qed.

(** A call the governor lets through and the provider answers with 429. *)
Lemma limited_run (w : World) dt response message :
  governor (clock w) (client w) = Available ->
  axios_result (List.length (requests w)) (opensky_request (client w))
    = Rejected dt (Some response) message ->
  status response = 429%Z ->
  getOpenSkyFlights w =
    (Return [],
     let seconds := retryAfterSeconds response in
     let until := (clock w + dt + seconds * 1000)%float in
     let c1 := set_openSkyRetryAfter (client w) until in
     {| client := if (300 <? seconds)%float
                  then set_openSkyDisabledUntil c1 until else c1;
        clock := (clock w + dt)%float;
        requests := requests w ++ [opensky_request (client w)];
        invoked := invoked w ++ [OpenSky] |}).
Proof.
  intros Hg Hnet Hst.
  unfold getOpenSkyFlights, bind, try_catch, enter, Date_now, this.
  cbn [client clock requests invoked]. rewrite Hg.
  unfold axios_get. cbn [client clock requests invoked]. rewrite Hnet.
  unfold opensky_catch. rewrite Hst. cbn [Z.eqb Pos.eqb].
  unfold bind, Date_now, this, set_client, ret.
  cbn [client clock requests invoked].
  destruct (300 <? retryAfterSeconds response)%float; reflexivity.
Qed.

End Governor.

(** C6. A call to [getOpenSkyFlights] made while [now < openSkyDisabledUntil],
    or [now < openSkyRetryAfter], or [now - lastOpenSkyCall < openSkyMinInterval]
    is refused: it returns the empty list (it does not throw), sends no
    request and leaves the client's fields as they were; the three tests
    are made in that order, the first that holds deciding the verdict. *)
Theorem governor_refuses `{host : Host} `{net : Network} (w : World) :
  (clock w <? openSkyDisabledUntil (client w))%float = true
  \/ (clock w <? openSkyRetryAfter (client w))%float = true
  \/ (clock w - lastOpenSkyCall (client w) <? openSkyMinInterval (client w))%float = true ->
  getOpenSkyFlights w = (Return [], entered OpenSky w)
  /\ requests (snd (getOpenSkyFlights w)) = requests w
  /\ client (snd (getOpenSkyFlights w)) = client w
  /\ governor (clock w) (client w) =
       if (clock w <? openSkyDisabledUntil (client w))%float then CircuitOpen
       else if (clock w <? openSkyRetryAfter (client w))%float then RetryWait
       else Throttled.
Proof.
  intros H.
  assert (G : governor (clock w) (client w) =
       if (clock w <? openSkyDisabledUntil (client w))%float then CircuitOpen
       else if (clock w <? openSkyRetryAfter (client w))%float then RetryWait
       else Throttled).
  { unfold governor.
    destruct (clock w <? openSkyDisabledUntil (client w))%float; [reflexivity|].
    destruct (clock w <? openSkyRetryAfter (client w))%float; [reflexivity|].
    destruct H as [H|[H|H]]; try discriminate. rewrite H. reflexivity. }
  assert (R : getOpenSkyFlights w = (Return [], entered OpenSky w)).
  { apply refused_run. rewrite G.
    destruct (clock w <? openSkyDisabledUntil (client w))%float; [discriminate|].
    destruct (clock w <? openSkyRetryAfter (client w))%float; discriminate. }
  rewrite R. repeat split; assumption.
Qed.

Lemma governor_refuses_witness :
  let w := {| client := set_lastOpenSkyCall default_client 1699999995000;
              clock := 1700000000000; requests := []; invoked := [] |} in
  (clock w - lastOpenSkyCall (client w) <? openSkyMinInterval (client w))%float = true
  /\ getOpenSkyFlights (host := Sample.series_host) (net := Sample.opensky_limited) w
     = (Return [], entered OpenSky w)
  /\ governor (clock w) (client w) = Throttled.
Proof.
  cbv zeta. split; [vm_compute; reflexivity|].
  pose proof (@governor_refuses Sample.series_host Sample.opensky_limited
    {| client := set_lastOpenSkyCall default_client 1699999995000;
       clock := 1700000000000; requests := []; invoked := [] |}
    (or_intror (or_intror eq_refl))) as (R & _ & _ & G).
  split; [exact R|]. rewrite G. vm_compute. reflexivity.
Defined.

(** C5. When [getOpenSkyFlights] is answered with HTTP 429 it reads the
    retry-after header (60 when the header is absent), sets
    [openSkyRetryAfter] to the time of the answer plus that many seconds
    times 1000 and, exactly when the seconds exceed 300, sets
    [openSkyDisabledUntil] to the same instant.  After a 429 with
    retry-after 600, every call made before that instant returns the empty
    list without a request. *)
Theorem rate_limit_backoff `{host : Host} `{net : Network}
    (w : World) (dt : float) (response : HttpResponse) (message : string) :
  governor (clock w) (client w) = Available ->
  axios_result (List.length (requests w)) (opensky_request (client w))
    = Rejected dt (Some response) message ->
  status response = 429%Z ->
  let seconds := retryAfterSeconds response in
  let until := (clock w + dt + seconds * 1000)%float in
  let w' := snd (getOpenSkyFlights w) in
  fst (getOpenSkyFlights w) = Return []
  /\ (lookup retry_after_header (headers response) = None -> seconds = 60%float)
  /\ (forall text, lookup retry_after_header (headers response) = Some text ->
        text <> "" -> seconds = Latin1.parseInt text)
  /\ openSkyRetryAfter (client w') = until
  /\ openSkyDisabledUntil (client w') =
       (if (300 <? seconds)%float then until else openSkyDisabledUntil (client w))
  /\ lastOpenSkyCall (client w') = lastOpenSkyCall (client w)
  /\ (lookup retry_after_header (headers response) = Some "600" ->
      openSkyDisabledUntil (client w') = (clock w + dt + 600 * 1000)%float
      /\ forall later : World,
           client later = client w' ->
           (clock later <? clock w + dt + 600 * 1000)%float = true ->
           getOpenSkyFlights later = (Return [], entered OpenSky later)
           /\ requests (snd (getOpenSkyFlights later)) = requests later).
Proof.
  intros Hg Hnet Hst seconds until w'.
  pose proof (limited_run w dt response message Hg Hnet Hst) as R. cbv zeta in R.
  fold seconds in R. fold until in R.
  subst w'. rewrite R. cbn [fst snd client].
  split; [reflexivity|]. split.
  { intros Hh. subst seconds. unfold retryAfterSeconds. rewrite Hh.
    vm_compute. reflexivity. }
  split.
  { intros text Hh Hne. subst seconds. unfold retryAfterSeconds. rewrite Hh.
    destruct (String.eqb_spec text ""); [contradiction|reflexivity]. }
  split.
  { destruct (300 <? seconds)%float; reflexivity. }
  split.
  { destruct (300 <? seconds)%float; reflexivity. }
  split.
  { destruct (300 <? seconds)%float; reflexivity. }
  intros Hh.
  assert (S600 : seconds = 600%float).
  { subst seconds. unfold retryAfterSeconds. rewrite Hh. vm_compute. reflexivity. }
  assert (D : openSkyDisabledUntil
                (if (300 <? seconds)%float
                 then set_openSkyDisabledUntil
                        (set_openSkyRetryAfter (client w) until) until
                 else set_openSkyRetryAfter (client w) until)
              = (clock w + dt + 600 * 1000)%float).
  { subst until. rewrite S600.
    replace (300 <? 600)%float with true by (vm_compute; reflexivity).
    reflexivity. }
  split; [exact D|].
  intros later Hc Hlt.
  assert (Rl : getOpenSkyFlights later = (Return [], entered OpenSky later)).
  { apply refused_run. unfold governor. rewrite Hc, D, Hlt. discriminate. }
  rewrite Rl. split; reflexivity.
Qed.

Lemma rate_limit_backoff_witness :
  let w := Sample.start in
  let w' := snd (getOpenSkyFlights (host := Sample.series_host)
                   (net := Sample.opensky_limited) w) in
  governor (clock w) (client w) = Available
  /\ fst (getOpenSkyFlights (host := Sample.series_host)
            (net := Sample.opensky_limited) w) = Return []
  /\ openSkyRetryAfter (client w') = 1700000600080%float
  /\ openSkyDisabledUntil (client w') = 1700000600080%float.
Proof.
  pose proof (@rate_limit_backoff Sample.series_host Sample.opensky_limited
                Sample.start 80%float
                {| status := 429; headers := [(retry_after_header, "600")];
                   data := Str "" |}
                "Request failed with status code 429"
                eq_refl eq_refl eq_refl) as H.
  cbv zeta in H. destruct H as (H1 & _ & _ & H3 & H4 & _).
  cbv zeta. split; [reflexivity|]. split; [exact H1|]. split.
  - rewrite H3. vm_compute. reflexivity.
  - rewrite H4. vm_compute. reflexivity.
Defined.

(* ================================================================= *)
(** ** The schedule feed without a credential *)

(** C7. With no [AVIATIONSTACK_API_KEY] configured (the variable unset, or
    set to the empty string), [getAviationStackFlights] returns the empty
    list at once: no request is sent. *)
Theorem no_key_no_request `{net : Network} (w : World) :
  env_truthy (aviationStackKey (client w)) = false ->
  getAviationStackFlights w = (Return [], entered AviationStack w)
  /\ requests (snd (getAviationStackFlights w)) = requests w.
Proof.
  intros Hk.
  assert (R : getAviationStackFlights w = (Return [], entered AviationStack w)).
  { unfold getAviationStackFlights, bind, try_catch, enter, this.
    cbn [client clock requests invoked].
    destruct (aviationStackKey (client w)) as [key|]; [|reflexivity].
    cbn in Hk. apply negb_false_iff in Hk. rewrite Hk. reflexivity. }
  rewrite R. split; reflexivity.
Qed.

Lemma no_key_no_request_witness :
  aviationStackKey (client Sample.start) = None
  /\ getAviationStackFlights (net := Sample.schedules_of [Sample.flight_complete])
       Sample.start
     = (Return [], entered AviationStack Sample.start).
Proof.
  split; [reflexivity|].
  exact (proj1 (@no_key_no_request (Sample.schedules_of [Sample.flight_complete])
                  Sample.start eq_refl)).
Defined.

Section ScheduleBatch.
Context `{host : Host} `{net : Network}.

(** One entry whose normalization throws empties the schedule batch. *)
Lemma one_throw_empties_the_batch
    (w : World) (key : string) (dt : float) (response : HttpResponse)
    (batch : list value) (bad : value) (e : Error) :
  aviationStackKey (client w) = Some key ->
  String.eqb key "" = false ->
  axios_result (List.length (requests w))
    (AviationStackFlights key (iataCode (client w)) 100) = Fulfilled dt response ->
  get_prop (data response) "data" = Return (Arr batch) ->
  In bad batch ->
  schedule_of bad = Throw e ->
  fst (getAviationStackFlights w) = Return [].
Proof.
  intros Hkey Hne Hnet Hdata Hin Hbad.
  unfold getAviationStackFlights, bind, try_catch, enter, this.
  cbn [client clock requests invoked]. rewrite Hkey, Hne.
  unfold axios_get. cbn [client clock requests invoked]. rewrite Hnet.
  assert (T : ToBoolean (data response) = true).
  { destruct (data response); try discriminate Hdata; reflexivity. }
  rewrite T. cbn [negb]. unfold lift at 1. rewrite Hdata. cbn [ToBoolean negb].
  unfold lift. destruct (mapE_Throw schedule_of batch bad e Hin Hbad) as (e' & ->).
  reflexivity.
Qed.

End ScheduleBatch.

(** C3 (the code departs from it). One entry of the schedule batch without
    its [airline] member makes its normalization throw, and the adapter's
    handler turns that into the empty list: the well-formed entry beside it
    is lost, although alone it is normalized, and although an absent
    [aircraft] member is tolerated. *)
Theorem malformed_entry_empties_the_batch :
  schedule_of Sample.flight_no_airline = Throw TypeError
  /\ fst (getAviationStackFlights
            (net := Sample.schedules_of [Sample.flight_complete; Sample.flight_no_airline])
            (Sample.with_key Sample.start)) = Return []
  /\ exists s : Schedule.t,
       schedule_of Sample.flight_complete = Return s
       /\ Schedule.aircraft s
          = {| Aircraft.registration := Undefined; Aircraft.iata := Undefined;
               Aircraft.icao := Undefined |}
       /\ fst (getAviationStackFlights
                 (net := Sample.schedules_of [Sample.flight_complete])
                 (Sample.with_key Sample.start)) = Return [s].
Proof.
  split; [reflexivity|]. split; [vm_compute; reflexivity|].
  eexists. split; [vm_compute; reflexivity|].
  split; [reflexivity|]. vm_compute. reflexivity.
Qed.

(* ================================================================= *)
(** ** The orchestrator *)

Section Orchestrator.
Context `{host : Host} `{net : Network}.

Lemma entries_app a l1 l2 : entries a (l1 ++ l2) = entries a l1 + entries a l2.
Proof. unfold entries. rewrite filter_app, length_app. reflexivity. Qed.

(** The adapters [getAllFlights] enters when the primary feed is
    preferred, in order. *)
Lemma getAllFlights_primary_log (w : World) :
  useAdsbLol (client w) = true ->
  exists primary w1 envelope w2,
    getAdsbLolFlights w = (Return primary, w1)
    /\ getAllFlights w = (Return envelope, w2)
    /\ invoked w2 = invoked w ++
         match primary with
         | [] => [AdsbLol; OpenSky; AviationStack]
         | _ :: _ => [AdsbLol; AviationStack]
         end.
Proof.
  intros Hp.
  destruct (getAdsbLolFlights_run w) as (primary & w1 & R1 & L1).
  exists primary, w1.
  unfold getAllFlights, try_catch, bind, this. rewrite Hp, R1.
  destruct primary as [|r rs]; cbn [List.length Nat.eqb].
  - destruct (getOpenSkyFlights_run w1) as (fallback & w2 & R2 & L2).
    rewrite R2.
    destruct (getAviationStackFlights_run w2) as (sched & w3 & R3 & L3).
    rewrite R3. unfold new_Date_toISOString, ret.
    eexists _, w3. repeat split.
    rewrite L3, L2, L1, <- !app_assoc. reflexivity.
  - unfold ret.
    destruct (getAviationStackFlights_run w1) as (sched & w3 & R3 & L3).
    rewrite R3. unfold new_Date_toISOString.
    eexists _, w3. repeat split.
    rewrite L3, L1, <- !app_assoc. reflexivity.
Qed.

End Orchestrator.

(** C4. When the primary feed is preferred, a run of [getAllFlights]
    enters the fallback adapter [getOpenSkyFlights] exactly once if the
    primary adapter [getAdsbLolFlights] returned the empty list, and not
    at all if it returned one or more records. *)
Theorem fallback_invocations `{host : Host} `{net : Network} (w : World) :
  useAdsbLol (client w) = true ->
  exists primary envelope,
    fst (getAdsbLolFlights w) = Return primary
    /\ fst (getAllFlights w) = Return envelope
    /\ entries OpenSky (invoked (snd (getAllFlights w)))
       = entries OpenSky (invoked w)
         + match primary with [] => 1 | _ :: _ => 0 end.
Proof.
  intros Hp.
  destruct (getAllFlights_primary_log w Hp) as (primary & w1 & env & w2 & R1 & R & L).
  exists primary, env. rewrite R1, R. cbn [fst snd].
  repeat split. rewrite L, entries_app.
  destruct primary; reflexivity.
Qed.

Lemma fallback_invocations_witness :
  useAdsbLol (client Sample.start) = true
  /\ entries OpenSky
       (invoked (snd (getAllFlights (host := Sample.series_host)
                        (net := Sample.adsb_down) Sample.start))) = 1
  /\ entries OpenSky
       (invoked (snd (getAllFlights (host := Sample.series_host)
                        (net := Sample.adsb_up) Sample.start))) = 0.
Proof.
  split; [reflexivity|].
  destruct (@fallback_invocations Sample.series_host Sample.adsb_down
              Sample.start eq_refl) as (p1 & e1 & A1 & _ & N1).
  destruct (@fallback_invocations Sample.series_host Sample.adsb_up
              Sample.start eq_refl) as (p2 & e2 & A2 & _ & N2).
  split.
  - rewrite N1. vm_compute in A1.
    injection A1 as <-. reflexivity.
  - rewrite N2. vm_compute in A2.
    injection A2 as <-. reflexivity.
Defined.

Section EnvelopeSource.
Context `{host : Host} `{net : Network}.

(** The [source] of the envelope is decided by the preference flag and by
    whether any position came back, not by the adapter that produced it. *)
Lemma getAllFlights_source (w w' : World) (envelope : Envelope) :
  getAllFlights w = (Return envelope, w') ->
  source envelope =
    if Nat.ltb 0 (List.length (livePositions envelope))
    then (if useAdsbLol (client w') then "ADSB.lol" else "OpenSky")
    else "None".
Proof.
  unfold getAllFlights, try_catch, bind, this, new_Date_toISOString, ret, throw.
  intros H.
  destruct (useAdsbLol (client w));
    repeat match type of H with
           | context [if Nat.eqb ?n 0 then _ else _] => destruct (Nat.eqb n 0)
           | context [match ?m ?x with _ => _ end] =>
               destruct (m x) as [[?|?] ?]
           end;
    try discriminate H; injection H as <- <-; reflexivity.
Qed.

End EnvelopeSource.

(** C2 (the code departs from it). With the primary feed preferred, ADSB.lol
    unreachable and OpenSky answering with one state, the envelope of
    [getAllFlights] carries the record OpenSky produced under the source
    name of the primary feed. *)
Theorem source_names_the_preferred_feed `{host : Host} :
  fst (getAdsbLolFlights (net := Sample.adsb_down) Sample.start) = Return []
  /\ exists (r : Flight) (envelope : Envelope),
       fst (getOpenSkyFlights (net := Sample.adsb_down)
              (snd (getAdsbLolFlights (net := Sample.adsb_down) Sample.start)))
         = Return [r]
       /\ fst (getAllFlights (net := Sample.adsb_down) Sample.start) = Return envelope
       /\ livePositions envelope = [r]
       /\ useAdsbLol (client Sample.start) = true
       /\ source envelope = "ADSB.lol".
Proof.
  split; [vm_compute; reflexivity|].
  eexists _, _. split; [vm_compute; reflexivity|].
  split; [vm_compute; reflexivity|].
  repeat split.
Qed.

(* ================================================================= *)
(** ** Geometry *)

Section Haversine.
Context `{host : Host}.
Hypothesis sin_odd : forall x, Math_sin (- x) = (- Math_sin x)%float.
Local Open Scope float_scope.

Import FloatFacts.

Lemma toRad_opp d : toRad (- d) = - toRad d.
Proof. unfold toRad. rewrite mul_opp_l, div_opp_l. reflexivity. Qed.

(** [Math.sin(toRad(d) / 2)], the factor both squares are made of. *)
Lemma half_sine_opp d :
  Math_sin (toRad (- d) / 2) = - Math_sin (toRad d / 2).
Proof. rewrite toRad_opp, div_opp_l. apply sin_odd. Qed.

Lemma half_sine_square x y :
  Math_sin (toRad (x - y) / 2) * Math_sin (toRad (x - y) / 2)
  = Math_sin (toRad (y - x) / 2) * Math_sin (toRad (y - x) / 2).
Proof.
  destruct (sub_antisym x y) as [E|[E1 E2]].
  - rewrite E, half_sine_opp. apply square_opp.
  - rewrite E1, E2. reflexivity.
Qed.

Lemma scaled_half_sine_square p x y :
  p * Math_sin (toRad (x - y) / 2) * Math_sin (toRad (x - y) / 2)
  = p * Math_sin (toRad (y - x) / 2) * Math_sin (toRad (y - x) / 2).
Proof.
  destruct (sub_antisym x y) as [E|[E1 E2]].
  - rewrite E, half_sine_opp. apply scaled_square_opp.
  - rewrite E1, E2. reflexivity.
Qed.

End Haversine.

(** On a host whose [Math.sin] is an odd function, [calculateDistance]
    returns the same Number for a pair of points taken in either order,
    NaN included. *)
Lemma haversine_symmetric `{host : Host} :
  (forall x, Math_sin (- x) = (- Math_sin x)%float) ->
  forall lat1 lon1 lat2 lon2 : float,
    calculateDistance lat1 lon1 lat2 lon2 = calculateDistance lat2 lon2 lat1 lon1.
Proof.
  intros Hodd lat1 lon1 lat2 lon2. unfold calculateDistance.
  rewrite (half_sine_square Hodd lat2 lat1).
  rewrite (scaled_half_sine_square Hodd _ lon2 lon1).
  rewrite (FloatFacts.mul_comm (Math_cos (toRad lat1)) (Math_cos (toRad lat2))).
  reflexivity.
Qed.

(** The hypothesis is needed: on a host whose sine is not odd the two
    orders can differ. *)
Lemma symmetry_needs_an_odd_sine :
  let lopsided : Host :=
    {| Math_sin := fun x => (x + 1)%float;
       Math_cos := fun _ => 1%float;
       Math_atan2 := fun y _ => y |} in
  (calculateDistance (host := lopsided) 0 0 90 0
   =? calculateDistance (host := lopsided) 90 0 0 0)%float = false.
Proof. vm_compute. reflexivity. Qed.

Lemma series_sin_odd (x : float) :
  Math_sin (Host := Sample.series_host) (- x) = (- Math_sin (Host := Sample.series_host) x)%float.
Proof.
  cbn [Math_sin Sample.series_host].
  rewrite FloatFacts.square_opp, FloatFacts.mul_opp_l. reflexivity.
Qed.

Lemma haversine_symmetric_witness :
  calculateDistance (host := Sample.series_host) 50.0379 8.5622 51.47 (-0.4543)
  = calculateDistance (host := Sample.series_host) 51.47 (-0.4543) 50.0379 8.5622.
Proof.
  exact (@haversine_symmetric Sample.series_host series_sin_odd
           50.0379%float 8.5622%float 51.47%float (-0.4543)%float).
Defined.

(** Evaluates the closed arguments of the [Math] functions in the goal. *)
Ltac evaluate_arguments :=
  repeat match goal with
         | |- context [Math_sin ?x] =>
             let v := eval vm_compute in x in progress change x with v
         | |- context [Math_cos ?x] =>
             let v := eval vm_compute in x in progress change x with v
         end.

(** C9 (the code departs from it). Between the antipodal points (12, 0)
    and (-12, 180) the haversine term [a] rounds to 1.0000000000000002, so
    [Math.sqrt(1 - a)] is NaN and [calculateDistance] returns NaN in either
    order: the two calls do not compare equal, and the function gives no
    distance for a pair of valid points.  The values of [Math.sin] and
    [Math.cos] assumed are the correctly rounded ones at the six arguments
    the two calls reach, which V8 computes there. *)
Theorem antipodal_distance_is_not_a_number `{host : Host} :
  Math_sin 0.20943951023931953 = 0.20791169081775931%float ->
  Math_sin (-0.20943951023931953) = (-0.20791169081775931)%float ->
  Math_cos 0.20943951023931953 = 0.9781476007338057%float ->
  Math_cos (-0.20943951023931953) = 0.9781476007338057%float ->
  Math_sin 1.5707963267948966 = 1%float ->
  Math_sin (-1.5707963267948966) = (-1)%float ->
  (forall y, Math_atan2 y nan = nan) ->
  calculateDistance 12 0 (-12) 180 = nan
  /\ calculateDistance (-12) 180 12 0 = nan
  /\ (calculateDistance 12 0 (-12) 180 =? calculateDistance (-12) 180 12 0)%float
     = false.
Proof.
  intros S1 S2 C1 C2 S3 S4 A.
  assert (D1 : calculateDistance 12 0 (-12) 180 = nan).
  { unfold calculateDistance, toRad, Math_PI, Math_sqrt. evaluate_arguments.
    rewrite ?S1, ?S2, ?C1, ?C2, ?S3, ?S4.
    match goal with
    | |- context [Math_atan2 _ ?x] =>
        let v := eval vm_compute in x in change x with v
    end.
    rewrite A. reflexivity. }
  assert (D2 : calculateDistance (-12) 180 12 0 = nan).
  { unfold calculateDistance, toRad, Math_PI, Math_sqrt. evaluate_arguments.
    rewrite ?S1, ?S2, ?C1, ?C2, ?S3, ?S4.
    match goal with
    | |- context [Math_atan2 _ ?x] =>
        let v := eval vm_compute in x in change x with v
    end.
    rewrite A. reflexivity. }
  split; [exact D1|]. split; [exact D2|]. rewrite D1, D2. reflexivity.
Qed.

Lemma antipodal_distance_is_not_a_number_witness :
  calculateDistance (host := Sample.antipodal_host) 12 0 (-12) 180 = nan
  /\ (calculateDistance (host := Sample.antipodal_host) 12 0 (-12) 180
      =? calculateDistance (host := Sample.antipodal_host) (-12) 180 12 0)%float
     = false.
Proof.
  destruct (@antipodal_distance_is_not_a_number Sample.antipodal_host
              eq_refl eq_refl eq_refl eq_refl eq_refl eq_refl (fun y => eq_refl))
    as (D & _ & N).
  split; [exact D|exact N].
Defined.

(* ================================================================= *)
(** ** The adapters as runs: what is sent and what comes back *)

(** The world after a request that took [dt] milliseconds. *)
Lemma axios_get_run `{net : Network} (req : Request) (w : World) :
  axios_get req w =
    match axios_result (List.length (requests w)) req with
    | Fulfilled dt response =>
        (Return response,
         {| client := client w; clock := (clock w + dt)%float;
            requests := requests w ++ [req]; invoked := invoked w |})
    | Rejected dt response message =>
        (Throw (AxiosError response message),
         {| client := client w; clock := (clock w + dt)%float;
            requests := requests w ++ [req]; invoked := invoked w |})
    end.
Proof. unfold axios_get. destruct (axios_result _ req); reflexivity. Qed.

Lemma only_TypeError_Return {A} (a : A) : only_TypeError (Return a).
Proof. intros e H. discriminate H. Qed.

Lemma only_TypeError_Throw {A} : only_TypeError (@Throw A TypeError).
Proof. intros e H. injection H as <-. reflexivity. Qed.

Lemma only_TypeError_bindE {A B} (m : Outcome A) (k : A -> Outcome B) :
  only_TypeError m -> (forall a, only_TypeError (k a)) -> only_TypeError (bindE m k).
Proof.
  intros Hm Hk e H. destruct m as [a|e0]; cbn in H.
  - exact (Hk a e H).
  - injection H as <-. apply Hm. reflexivity.
Qed.

Lemma only_TypeError_mapE {A B} (f : A -> Outcome B) (l : list A) :
  (forall a, only_TypeError (f a)) -> only_TypeError (mapE f l).
Proof.
  intros Hf. induction l as [|x l IH]; cbn [mapE].
  - apply only_TypeError_Return.
  - apply only_TypeError_bindE; [apply Hf|intro b].
    apply only_TypeError_bindE; [exact IH|intro bs].
    apply only_TypeError_Return.
Qed.

(** Splits a pure computation along its steps and case analyses. *)
Ltac only_TypeError :=
  repeat first
    [ apply only_TypeError_Return
    | apply only_TypeError_Throw
    | apply only_TypeError_bindE; [|intro]
    | match goal with
      | |- only_TypeError (match ?x with _ => _ end) => destruct x
      end ].

Lemma get_index_only_TypeError v i : only_TypeError (get_index v i).
Proof. unfold get_index. only_TypeError. Qed.

Lemma get_prop_only_TypeError v k : only_TypeError (get_prop v k).
Proof. unfold get_prop. only_TypeError. Qed.

Lemma ToNumber_only_TypeError v : only_TypeError (ToNumber v).
Proof. unfold ToNumber. only_TypeError. Qed.

Lemma js_mul_only_TypeError v c : only_TypeError (js_mul v c).
Proof.
  unfold js_mul. apply only_TypeError_bindE;
    [apply ToNumber_only_TypeError|intro; apply only_TypeError_Return].
Qed.

Lemma call_trim_only_TypeError v : only_TypeError (call_trim v).
Proof. unfold call_trim. only_TypeError. Qed.

Lemma opensky_flight_only_TypeError now state :
  only_TypeError (opensky_flight now state).
Proof.
  unfold opensky_flight.
  repeat first
    [ apply only_TypeError_Return
    | apply get_index_only_TypeError
    | apply js_mul_only_TypeError
    | apply call_trim_only_TypeError
    | apply only_TypeError_bindE; [|intro]
    | match goal with
      | |- only_TypeError (if ?b then _ else _) => destruct b
      end ].
Qed.

Section AdapterRuns.
Context `{host : Host} `{net : Network}.

(** The endpoint loop on the two candidates. *)
Lemma first_response_two (p q : Request) (w : World) :
  first_response [p; q] w =
    match axios_result (List.length (requests w)) p with
    | Fulfilled dt r =>
        (Return (Some r),
         {| client := client w; clock := (clock w + dt)%float;
            requests := requests w ++ [p]; invoked := invoked w |})
    | Rejected dt _ _ =>
        match axios_result (S (List.length (requests w))) q with
        | Fulfilled dt' r =>
            (Return (Some r),
             {| client := client w; clock := (clock w + dt + dt')%float;
                requests := requests w ++ [p; q]; invoked := invoked w |})
        | Rejected dt' _ _ =>
            (Return None,
             {| client := client w; clock := (clock w + dt + dt')%float;
                requests := requests w ++ [p; q]; invoked := invoked w |})
        end
    end.
Proof.
  cbn [first_response]. unfold try_catch at 1. unfold bind at 1.
  rewrite axios_get_run.
  destruct (axios_result (List.length (requests w)) p) as [dt r|dt r msg];
    [reflexivity|].
  unfold try_catch, bind, ret. rewrite axios_get_run.
  cbn [client clock requests invoked].
  rewrite length_app, Nat.add_1_r. cbn [List.length].
  rewrite <- app_assoc. cbn [app].
  destruct (axios_result (S (List.length (requests w))) q); reflexivity.
Qed.

(** [getAdsbLolFlights] is the endpoint loop followed by [adsb_flights], a
    throw read as the empty list. *)
Lemma getAdsbLolFlights_unfold (w : World) :
  getAdsbLolFlights w =
    match first_response (adsb_endpoints (client w)) (entered AdsbLol w) with
    | (Return (Some r), w1) =>
        (Return (or_empty (adsb_flights (toISOString (clock w1)) (data r))), w1)
    | (_, w1) => (Return [], w1)
    end.
Proof.
  unfold getAdsbLolFlights, bind, try_catch, enter, this, entered, adsb_endpoints.
  cbn [client clock requests invoked].
  match goal with
  | |- context [first_response ?eps ?w0] =>
      destruct (first_response eps w0) as [[[r|]|e] w1]
  end; try reflexivity.
  unfold bind, new_Date_toISOString, lift, ret.
  destruct (adsb_flights (toISOString (clock w1)) (data r)); reflexivity.
Qed.

(** A call the governor lets through and the provider answers. *)
Lemma opensky_answered_run (w : World) (dt : float) (response : HttpResponse) :
  governor (clock w) (client w) = Available ->
  axios_result (List.length (requests w)) (opensky_request (client w))
    = Fulfilled dt response ->
  getOpenSkyFlights w =
    (Return (or_empty (opensky_flights (toISOString (clock w + dt)%float)
                         (data response))),
     {| client := set_lastOpenSkyCall (client w) (clock w);
        clock := (clock w + dt)%float;
        requests := requests w ++ [opensky_request (client w)];
        invoked := invoked w ++ [OpenSky] |}).
Proof.
  intros Hg Hnet.
  unfold getOpenSkyFlights, bind, try_catch, enter, Date_now, this.
  cbn [client clock requests invoked]. rewrite Hg.
  rewrite axios_get_run. cbn [client clock requests invoked]. rewrite Hnet.
  unfold set_client, opensky_flights. cbn [client clock requests invoked].
  destruct (ToBoolean (data response)); cbn [negb]; [|reflexivity].
  unfold lift at 1.
  destruct (get_prop (data response) "states") as [states|e] eqn:Hs; cbn [bindE].
  2:{ apply get_prop_only_TypeError in Hs. subst e. reflexivity. }
  destruct (ToBoolean states); cbn [negb]; [|reflexivity].
  destruct states; try reflexivity.
  unfold bind, new_Date_toISOString, lift. cbn [clock].
  destruct (mapE _ items) as [l|e] eqn:Hm; [reflexivity|].
  apply (only_TypeError_mapE _ _ (opensky_flight_only_TypeError _)) in Hm.
  subst e. reflexivity.
Qed.

(** A call the governor lets through and that fails otherwise than by a
    429: the handler only logs. *)
Lemma opensky_failed_run (w : World) (dt : float)
    (response : option HttpResponse) (message : string) :
  governor (clock w) (client w) = Available ->
  axios_result (List.length (requests w)) (opensky_request (client w))
    = Rejected dt response message ->
  (forall r, response = Some r -> status r <> 429%Z) ->
  getOpenSkyFlights w =
    (Return [],
     {| client := client w;
        clock := (clock w + dt)%float;
        requests := requests w ++ [opensky_request (client w)];
        invoked := invoked w ++ [OpenSky] |}).
Proof.
  intros Hg Hnet Hst.
  unfold getOpenSkyFlights, bind, try_catch, enter, Date_now, this.
  cbn [client clock requests invoked]. rewrite Hg.
  rewrite axios_get_run. cbn [client clock requests invoked]. rewrite Hnet.
  unfold opensky_catch.
  destruct response as [r|]; [|reflexivity].
  specialize (Hst r eq_refl). apply Z.eqb_neq in Hst. rewrite Hst. reflexivity.
Qed.

(** The schedule adapter with a key configured. *)
Lemma getAviationStackFlights_unfold (w : World) (key : string) :
  aviationStackKey (client w) = Some key ->
  key <> "" ->
  getAviationStackFlights w =
    match axios_result (List.length (requests w))
            (aviationstack_request (client w) key) with
    | Fulfilled dt response =>
        (Return (or_empty (aviationstack_schedules (data response))),
         {| client := client w; clock := (clock w + dt)%float;
            requests := requests w ++ [aviationstack_request (client w) key];
            invoked := invoked w ++ [AviationStack] |})
    | Rejected dt _ _ =>
        (Return [],
         {| client := client w; clock := (clock w + dt)%float;
            requests := requests w ++ [aviationstack_request (client w) key];
            invoked := invoked w ++ [AviationStack] |})
    end.
Proof.
  intros Hkey Hne. apply String.eqb_neq in Hne.
  unfold getAviationStackFlights, bind, try_catch, enter, this.
  cbn [client clock requests invoked]. rewrite Hkey, Hne.
  rewrite axios_get_run. cbn [client clock requests invoked].
  fold (aviationstack_request (client w) key).
  destruct (axios_result _ _) as [dt response|dt response msg]; [|reflexivity].
  unfold aviationstack_schedules.
  destruct (ToBoolean (data response)); cbn [negb]; [|reflexivity].
  unfold lift at 1.
  destruct (get_prop (data response) "data") as [d|e]; cbn [bindE]; [|reflexivity].
  destruct (ToBoolean d); cbn [negb]; [|reflexivity].
  destruct d; try reflexivity.
  unfold lift. destruct (mapE schedule_of items); reflexivity.
Qed.

End AdapterRuns.

(* ================================================================= *)
(** ** What a run leaves behind *)

Lemma same_config_refl c : same_config c c.
Proof. repeat split. Qed.

Lemma same_config_trans c1 c2 c3 :
  same_config c1 c2 -> same_config c2 c3 -> same_config c1 c3.
Proof.
  unfold same_config. intros H1 H2.
  decompose [and] H1. decompose [and] H2. repeat split; congruence.
Qed.

Section Footprints.
Context `{host : Host} `{net : Network}.

(** ADSB.lol: one or two requests, the client untouched. *)
Lemma adsb_footprint (w : World) :
  client (snd (getAdsbLolFlights w)) = client w
  /\ invoked (snd (getAdsbLolFlights w)) = invoked w ++ [AdsbLol]
  /\ (requests (snd (getAdsbLolFlights w))
        = requests w ++ firstn 1 (adsb_endpoints (client w))
      \/ requests (snd (getAdsbLolFlights w))
        = requests w ++ adsb_endpoints (client w)).
Proof.
  rewrite getAdsbLolFlights_unfold. unfold adsb_endpoints.
  rewrite first_response_two. cbn [entered client clock requests invoked].
  destruct (axios_result _ _) as [dt r|dt r msg]; cbn [snd client requests invoked firstn].
  - auto.
  - destruct (axios_result _ _) as [dt' r'|dt' r' msg'];
      cbn [snd client requests invoked]; auto.
Qed.

(** OpenSky: at most one request; only the governor's fields may change. *)
Lemma opensky_footprint (w : World) :
  same_config (client w) (client (snd (getOpenSkyFlights w)))
  /\ invoked (snd (getOpenSkyFlights w)) = invoked w ++ [OpenSky]
  /\ (requests (snd (getOpenSkyFlights w)) = requests w
      \/ requests (snd (getOpenSkyFlights w))
         = requests w ++ [opensky_request (client w)]).
Proof.
  destruct (governor (clock w) (client w)) eqn:Hg;
    try (rewrite refused_run by (rewrite Hg; discriminate);
         cbn; split; [apply same_config_refl|auto]).
  destruct (axios_result (List.length (requests w)) (opensky_request (client w)))
    as [dt r|dt [r|] msg] eqn:Hn.
  - rewrite (opensky_answered_run w dt r Hg Hn). cbn.
    split; [repeat split|auto].
  - destruct (Z.eq_dec (status r) 429) as [Hs|Hs].
    + rewrite (limited_run w dt r msg Hg Hn Hs). cbv zeta. cbn [snd client requests invoked].
      split; [|auto].
      destruct (300 <? retryAfterSeconds r)%float; repeat split.
    + rewrite (opensky_failed_run w dt (Some r) msg Hg Hn)
        by (intros r0 E; injection E as <-; exact Hs).
      cbn. split; [apply same_config_refl|auto].
  - rewrite (opensky_failed_run w dt None msg Hg Hn) by (intros r0 E; discriminate E).
    cbn. split; [apply same_config_refl|auto].
Qed.

(** AviationStack: at most one request, the client untouched. *)
Lemma schedule_footprint (w : World) :
  client (snd (getAviationStackFlights w)) = client w
  /\ invoked (snd (getAviationStackFlights w)) = invoked w ++ [AviationStack]
  /\ (requests (snd (getAviationStackFlights w)) = requests w
      \/ exists key,
           aviationStackKey (client w) = Some key /\ key <> ""
           /\ requests (snd (getAviationStackFlights w))
              = requests w ++ [aviationstack_request (client w) key]).
Proof.
  destruct (env_truthy (aviationStackKey (client w))) eqn:Hk.
  - destruct (aviationStackKey (client w)) as [key|] eqn:Ek; [|discriminate Hk].
    cbn in Hk. apply negb_true_iff, String.eqb_neq in Hk.
    rewrite (getAviationStackFlights_unfold w key Ek Hk).
    destruct (axios_result _ _); cbn [snd client requests invoked];
      (split; [reflexivity|]; split; [reflexivity|]; right; exists key; auto).
  - destruct (no_key_no_request w Hk) as (R & _). rewrite R. cbn. auto.
Qed.

(** The position part of [getAllFlights] always returns. *)
Lemma live_positions_run (w : World) :
  exists positions w1, live_positions w = (Return positions, w1).
Proof.
  unfold live_positions, bind, this.
  destruct (useAdsbLol (client w)).
  - destruct (getAdsbLolFlights_run w) as (l & w1 & R & _). rewrite R.
    destruct (Nat.eqb (List.length l) 0).
    + destruct (getOpenSkyFlights_run w1) as (l2 & w2 & R2 & _). eauto.
    + unfold ret. eauto.
  - destruct (getOpenSkyFlights_run w) as (l2 & w2 & R2 & _). eauto.
Qed.

(** [getAllFlights] is the position part, then the schedule adapter, then
    the envelope. *)
Lemma getAllFlights_unfold (w : World) :
  exists positions w1 scheduled w2,
    live_positions w = (Return positions, w1)
    /\ getAviationStackFlights w1 = (Return scheduled, w2)
    /\ getAllFlights w =
         (Return {| livePositions := positions;
                    schedules := scheduled;
                    envelope_timestamp := toISOString (clock w2);
                    totalLive := List.length positions;
                    totalScheduled := List.length scheduled;
                    source :=
                      if Nat.ltb 0 (List.length positions)
                      then (if useAdsbLol (client w2) then "ADSB.lol" else "OpenSky")
                      else "None" |},
          w2).
Proof.
  destruct (live_positions_run w) as (positions & w1 & R1).
  destruct (getAviationStackFlights_run w1) as (scheduled & w2 & R2 & _).
  exists positions, w1, scheduled, w2. repeat split; try assumption.
  unfold live_positions in R1.
  unfold getAllFlights, try_catch.
  unfold bind at 1. unfold this at 1. unfold bind at 1.
  unfold bind at 1 in R1. unfold this at 1 in R1.
  rewrite R1. unfold bind at 1. rewrite R2. reflexivity.
Qed.

(** The footprint of the position part. *)
Lemma live_positions_footprint (w : World) :
  same_config (client w) (client (snd (live_positions w)))
  /\ exists sent log,
       requests (snd (live_positions w)) = requests w ++ sent
       /\ invoked (snd (live_positions w)) = invoked w ++ log
       /\ List.length sent <= 3
       /\ (useAdsbLol (client w) = false ->
           List.length sent <= 1 /\ log = [OpenSky]).
Proof.
  unfold live_positions, bind, this.
  destruct (useAdsbLol (client w)) eqn:Hp.
  - destruct (adsb_footprint w) as (C1 & L1 & N1).
    destruct (getAdsbLolFlights_run w) as (l & w1 & R & _).
    rewrite R in C1, L1, N1. rewrite R. cbn [snd] in *.
    assert (S1 : exists sent1, requests w1 = requests w ++ sent1
                               /\ List.length sent1 <= 2).
    { destruct N1 as [N1|N1]; rewrite N1; eexists; split; try reflexivity;
        cbn; lia. }
    destruct S1 as (sent1 & S1 & B1).
    destruct (Nat.eqb (List.length l) 0).
    + destruct (opensky_footprint w1) as (C2 & L2 & N2).
      split; [rewrite <- C1; exact C2|].
      destruct N2 as [N2|N2]; rewrite N2, L2, L1, S1, <- ?app_assoc.
      * exists sent1, [AdsbLol; OpenSky]. repeat split; try lia; discriminate.
      * exists (sent1 ++ [opensky_request (client w1)]), [AdsbLol; OpenSky].
        repeat split; try discriminate. rewrite length_app. cbn. lia.
    + unfold ret. cbn [snd]. split; [rewrite C1; apply same_config_refl|].
      exists sent1, [AdsbLol]. repeat split; try assumption; try lia; discriminate.
  - destruct (opensky_footprint w) as (C2 & L2 & N2).
    split; [exact C2|].
    destruct N2 as [N2|N2]; rewrite N2, L2.
    + exists [], [OpenSky]. rewrite app_nil_r. repeat split; cbn; lia.
    + exists [opensky_request (client w)], [OpenSky]. repeat split; cbn; lia.
Qed.

End Footprints.

(* ================================================================= *)
(** ** Further properties of the orchestrator *)

(** X1. No adapter throws, whatever the providers answer, and neither does
    [getAllFlights]: every failure inside an adapter ends as a returned
    list, so the orchestrator's rethrowing handler is never reached. *)
Theorem nothing_is_thrown `{host : Host} `{net : Network} (w : World) :
  (exists l, fst (getAdsbLolFlights w) = Return l)
  /\ (exists l, fst (getOpenSkyFlights w) = Return l)
  /\ (exists l, fst (getAviationStackFlights w) = Return l)
  /\ (exists envelope, fst (getAllFlights w) = Return envelope).
Proof.
  destruct (getAdsbLolFlights_run w) as (l1 & w1 & R1 & _).
  destruct (getOpenSkyFlights_run w) as (l2 & w2 & R2 & _).
  destruct (getAviationStackFlights_run w) as (l3 & w3 & R3 & _).
  destruct (getAllFlights_unfold w) as (p & wa & s & wb & _ & _ & R).
  rewrite R1, R2, R3, R. cbn [fst]. repeat split; eexists; reflexivity.
Qed.

(** X2. A run of [getAllFlights] only appends to the requests sent, and
    appends at most four: two to ADSB.lol, one to OpenSky, one to
    AviationStack; at most two when the primary feed is disabled, and at
    most three when no schedule key is configured. *)
Theorem request_budget `{host : Host} `{net : Network} (w : World) :
  exists sent,
    requests (snd (getAllFlights w)) = requests w ++ sent
    /\ List.length sent <= 4
    /\ (useAdsbLol (client w) = false -> List.length sent <= 2)
    /\ (env_truthy (aviationStackKey (client w)) = false -> List.length sent <= 3).
Proof.
  destruct (getAllFlights_unfold w) as (p & w1 & s & w2 & R1 & R2 & R).
  destruct (live_positions_footprint w) as (C1 & sent1 & log1 & N1 & _ & B1 & F1).
  rewrite R1 in C1, N1. cbn [snd] in C1, N1.
  destruct (schedule_footprint w1) as (_ & _ & N2).
  rewrite R2 in N2. cbn [snd] in N2.
  rewrite R. cbn [snd].
  destruct N2 as [N2|(key & Hk & Hne & N2)]; rewrite N2, N1.
  - exists sent1. repeat split; try lia.
    intros Hp. destruct (F1 Hp). lia.
  - exists (sent1 ++ [aviationstack_request (client w1) key]).
    rewrite <- app_assoc, length_app. cbn [List.length].
    repeat split; try lia.
    + intros Hp. destruct (F1 Hp). lia.
    + intros Hno. destruct C1 as (Ck & _). rewrite Ck in Hk.
      rewrite Hk in Hno. cbn in Hno.
      apply negb_false_iff, String.eqb_eq in Hno. contradiction.
Qed.

(** X3. No method changes the configuration the constructor read:
    [getAdsbLolFlights] and [getAviationStackFlights] leave every field of
    the client as it was, and [getOpenSkyFlights] and [getAllFlights]
    change nothing but [lastOpenSkyCall], [openSkyRetryAfter] and
    [openSkyDisabledUntil]. *)
Theorem configuration_is_kept `{host : Host} `{net : Network} (w : World) :
  client (snd (getAdsbLolFlights w)) = client w
  /\ client (snd (getAviationStackFlights w)) = client w
  /\ same_config (client w) (client (snd (getOpenSkyFlights w)))
  /\ same_config (client w) (client (snd (getAllFlights w))).
Proof.
  destruct (adsb_footprint w) as (C1 & _).
  destruct (schedule_footprint w) as (C2 & _).
  destruct (opensky_footprint w) as (C3 & _).
  split; [exact C1|]. split; [exact C2|]. split; [exact C3|].
  destruct (getAllFlights_unfold w) as (p & w1 & s & w2 & R1 & R2 & R).
  destruct (live_positions_footprint w) as (C4 & _).
  destruct (schedule_footprint w1) as (C5 & _).
  rewrite R1 in C4. rewrite R2 in C5. rewrite R. cbn [snd] in *.
  rewrite C5. exact C4.
Qed.

(** X4. Whatever happens to the positions, [getAllFlights] enters the
    schedule adapter exactly once, last, and the envelope is consistent:
    the two totals are the lengths of the two lists, the time stamp is the
    clock at the end of the run, and the source is [None] exactly when no
    position came back. *)
Theorem envelope_is_consistent `{host : Host} `{net : Network} (w : World) :
  exists envelope log,
    fst (getAllFlights w) = Return envelope
    /\ totalLive envelope = List.length (livePositions envelope)
    /\ totalScheduled envelope = List.length (schedules envelope)
    /\ envelope_timestamp envelope = toISOString (clock (snd (getAllFlights w)))
    /\ (source envelope = "None" <-> livePositions envelope = [])
    /\ invoked (snd (getAllFlights w)) = invoked w ++ log ++ [AviationStack]
    /\ entries AviationStack log = 0.
Proof.
  destruct (getAllFlights_unfold w) as (p & w1 & s & w2 & R1 & R2 & R).
  destruct (schedule_footprint w1) as (_ & L2 & _).
  rewrite R2 in L2. cbn [snd] in L2.
  assert (L1 : exists log, invoked w1 = invoked w ++ log
                           /\ entries AviationStack log = 0).
  { unfold live_positions, bind, this in R1.
    destruct (useAdsbLol (client w)).
    - destruct (getAdsbLolFlights_run w) as (l & wa & Ra & La). rewrite Ra in R1.
      destruct (Nat.eqb (List.length l) 0).
      + destruct (getOpenSkyFlights_run wa) as (l2 & wb & Rb & Lb).
        rewrite Rb in R1. injection R1 as _ <-.
        exists [AdsbLol; OpenSky]. rewrite Lb, La, <- app_assoc. split; reflexivity.
      + injection R1 as _ <-. exists [AdsbLol]. split; [exact La|reflexivity].
    - destruct (getOpenSkyFlights_run w) as (l2 & wb & Rb & Lb).
      rewrite Rb in R1. injection R1 as _ <-.
      exists [OpenSky]. split; [exact Lb|reflexivity]. }
  destruct L1 as (log & L1 & E1).
  rewrite R. cbn [fst snd]. eexists _, log. split; [reflexivity|].
  cbn [livePositions schedules totalLive totalScheduled envelope_timestamp source].
  repeat split; try reflexivity; try assumption.
  - destruct p; [reflexivity|]. cbn. destruct (useAdsbLol (client w2)); discriminate.
  - intros ->. reflexivity.
  - rewrite L2, L1, <- app_assoc. reflexivity.
Qed.

(** X5. With the primary feed disabled, [getAllFlights] never enters
    [getAdsbLolFlights]: it enters [getOpenSkyFlights] once and the
    schedule adapter once, the positions of the envelope are those
    [getOpenSkyFlights] returned, and the source names OpenSky exactly when
    there are any. *)
Theorem primary_disabled `{host : Host} `{net : Network} (w : World) :
  useAdsbLol (client w) = false ->
  exists envelope,
    fst (getAllFlights w) = Return envelope
    /\ fst (getOpenSkyFlights w) = Return (livePositions envelope)
    /\ invoked (snd (getAllFlights w)) = invoked w ++ [OpenSky; AviationStack]
    /\ source envelope =
         match livePositions envelope with [] => "None" | _ :: _ => "OpenSky" end.
Proof.
  intros Hp.
  destruct (getAllFlights_unfold w) as (p & w1 & s & w2 & R1 & R2 & R).
  unfold live_positions, bind, this in R1. rewrite Hp in R1.
  destruct (opensky_footprint w) as ((_ & _ & _ & Cp & _) & L1 & _).
  destruct (schedule_footprint w1) as (C2 & L2 & _).
  rewrite R1 in Cp, L1. rewrite R2 in C2, L2. cbn [snd] in *.
  rewrite R, R1. cbn [fst snd]. eexists. split; [reflexivity|].
  cbn [livePositions source]. repeat split.
  - rewrite L2, L1, <- app_assoc. reflexivity.
  - rewrite C2, Cp, Hp. destruct p; reflexivity.
Qed.

Lemma primary_disabled_witness :
  let w := Fixture.world_of
             (new_APIClient (Fixture.env_of [("USE_ADSB_LOL", "false")]))
             1700000000000 in
  useAdsbLol (client w) = false
  /\ exists envelope,
       fst (getAllFlights (host := Sample.series_host) (net := Sample.adsb_down) w)
         = Return envelope
       /\ source envelope = "OpenSky"
       /\ invoked (snd (getAllFlights (host := Sample.series_host)
                          (net := Sample.adsb_down) w))
          = [OpenSky; AviationStack].
Proof.
  cbv zeta. split; [reflexivity|].
  destruct (@primary_disabled Sample.series_host Sample.adsb_down
              (Fixture.world_of
                 (new_APIClient (Fixture.env_of [("USE_ADSB_LOL", "false")]))
                 1700000000000) eq_refl) as (envelope & R & P & L & S).
  exists envelope. split; [exact R|]. split; [|exact L].
  rewrite S. destruct (livePositions envelope); [|reflexivity].
  vm_compute in P. discriminate P.
Defined.

(** X6. With the primary feed preferred and [getAdsbLolFlights] returning
    one record or more, the envelope carries exactly those records under
    the source name [ADSB.lol], and [getOpenSkyFlights] is not entered. *)
Theorem primary_answers `{host : Host} `{net : Network}
    (w : World) (r : Flight) (rs : list Flight) :
  useAdsbLol (client w) = true ->
  fst (getAdsbLolFlights w) = Return (r :: rs) ->
  exists envelope,
    fst (getAllFlights w) = Return envelope
    /\ livePositions envelope = r :: rs
    /\ source envelope = "ADSB.lol"
    /\ invoked (snd (getAllFlights w)) = invoked w ++ [AdsbLol; AviationStack].
Proof.
  intros Hp Ha.
  destruct (getAllFlights_unfold w) as (p & w1 & s & w2 & R1 & R2 & R).
  unfold live_positions, bind, this in R1. rewrite Hp in R1.
  destruct (adsb_footprint w) as (C1 & L1 & _).
  destruct (getAdsbLolFlights w) as [o wa]. cbn [fst snd] in *. subst o.
  cbn [List.length Nat.eqb] in R1. unfold ret in R1. injection R1 as <- <-.
  destruct (schedule_footprint wa) as (C2 & L2 & _).
  rewrite R2 in C2, L2. cbn [snd] in *.
  rewrite R. cbn [fst snd]. eexists. split; [reflexivity|].
  cbn [livePositions source List.length Nat.ltb Nat.leb]. repeat split.
  - rewrite C2, C1, Hp. reflexivity.
  - rewrite L2, L1, <- app_assoc. reflexivity.
Qed.

Lemma primary_answers_witness :
  exists envelope,
    fst (getAllFlights (host := Sample.series_host) (net := Sample.adsb_up)
           Sample.start) = Return envelope
    /\ source envelope = "ADSB.lol"
    /\ invoked (snd (getAllFlights (host := Sample.series_host)
                       (net := Sample.adsb_up) Sample.start))
       = [AdsbLol; AviationStack].
Proof.
  eassert (H : fst (getAdsbLolFlights (net := Sample.adsb_up) Sample.start)
               = Return (_ :: _)) by (vm_compute; reflexivity).
  destruct (@primary_answers Sample.series_host Sample.adsb_up Sample.start _ _
              eq_refl H) as (envelope & R & _ & S & L).
  exists envelope. auto.
Defined.

(* ================================================================= *)
(** ** Further properties of the position adapters *)

(** X7. [getAdsbLolFlights] asks the point endpoint first and the
    lat/lon/dist endpoint only if that request is rejected (for whatever
    reason): the first answer wins and ends the loop, its body gives the
    records, and two rejections give the empty list. *)
Theorem adsb_endpoint_fallback `{net : Network} (w : World) :
  let point := AdsbPoint (airportLat (client w)) (airportLon (client w))
                 (airportRadius (client w) * 0.539957)%float in
  let dist := AdsbLatLonDist (airportLat (client w)) (airportLon (client w))
                (airportRadius (client w) * 0.539957)%float in
  let after (now : float) (sent : list Request) :=
    {| client := client w; clock := now;
       requests := requests w ++ sent; invoked := invoked w ++ [AdsbLol] |} in
  getAdsbLolFlights w =
    match axios_result (List.length (requests w)) point with
    | Fulfilled dt r =>
        (Return (or_empty (adsb_flights (toISOString (clock w + dt)%float) (data r))),
         after (clock w + dt)%float [point])
    | Rejected dt _ _ =>
        match axios_result (S (List.length (requests w))) dist with
        | Fulfilled dt' r =>
            (Return (or_empty (adsb_flights (toISOString (clock w + dt + dt')%float)
                                 (data r))),
             after (clock w + dt + dt')%float [point; dist])
        | Rejected dt' _ _ => (Return [], after (clock w + dt + dt')%float [point; dist])
        end
    end.
Proof.
  cbv zeta. rewrite getAdsbLolFlights_unfold. unfold adsb_endpoints.
  rewrite first_response_two. cbn [entered client clock requests invoked].
  destruct (axios_result _ _) as [dt r|dt r msg]; [reflexivity|].
  destruct (axios_result _ _) as [dt' r'|dt' r' msg']; reflexivity.
Qed.

(** X8. An answered call to [getOpenSkyFlights] records as
    [lastOpenSkyCall] the time the call began (not the time of the answer),
    also when the body turns out to be unusable, and leaves the two
    back-off instants alone; every call begun less than
    [openSkyMinInterval] after it is then refused without a request. *)
Theorem answered_call_starts_the_interval `{host : Host} `{net : Network}
    (w : World) (dt : float) (response : HttpResponse) :
  governor (clock w) (client w) = Available ->
  axios_result (List.length (requests w)) (opensky_request (client w))
    = Fulfilled dt response ->
  fst (getOpenSkyFlights w)
    = Return (or_empty (opensky_flights (toISOString (clock w + dt)%float)
                          (data response)))
  /\ lastOpenSkyCall (client (snd (getOpenSkyFlights w))) = clock w
  /\ openSkyRetryAfter (client (snd (getOpenSkyFlights w)))
     = openSkyRetryAfter (client w)
  /\ openSkyDisabledUntil (client (snd (getOpenSkyFlights w)))
     = openSkyDisabledUntil (client w)
  /\ forall later : World,
       client later = client (snd (getOpenSkyFlights w)) ->
       (clock later - clock w <? openSkyMinInterval (client w))%float = true ->
       getOpenSkyFlights later = (Return [], entered OpenSky later).
Proof.
  intros Hg Hnet. rewrite (opensky_answered_run w dt response Hg Hnet).
  cbn [fst snd client]. repeat split.
  intros later Hc Ht. apply refused_run. unfold governor. rewrite Hc.
  cbn [openSkyDisabledUntil openSkyRetryAfter lastOpenSkyCall openSkyMinInterval
       set_lastOpenSkyCall].
  rewrite Ht.
  destruct (clock later <? openSkyDisabledUntil (client w))%float; [discriminate|].
  destruct (clock later <? openSkyRetryAfter (client w))%float; discriminate.
Qed.

Lemma answered_call_starts_the_interval_witness :
  let run := getOpenSkyFlights (host := Sample.series_host)
               (net := Sample.adsb_down) Sample.start in
  governor (clock Sample.start) (client Sample.start) = Available
  /\ lastOpenSkyCall (client (snd run)) = 1700000000000%float
  /\ clock (snd run) = 1700000000120%float
  /\ fst (getOpenSkyFlights (host := Sample.series_host) (net := Sample.adsb_down)
            {| client := client (snd run); clock := 1700000009999;
               requests := requests (snd run); invoked := invoked (snd run) |})
     = Return [].
Proof.
  cbv zeta. split; [reflexivity|].
  destruct (@answered_call_starts_the_interval Sample.series_host Sample.adsb_down
              Sample.start 120%float
              {| status := 200; headers := [];
                 data := Obj [("time", Num 1700000000);
                              ("states", Arr [Sample.state_no_position])] |}
              eq_refl eq_refl) as (_ & L & _ & _ & F).
  split; [exact L|]. split; [vm_compute; reflexivity|].
  rewrite F; [reflexivity|reflexivity|vm_compute; reflexivity].
Defined.

(** X9. A call to [getOpenSkyFlights] that fails otherwise than by a 429
    (no answer at all, or an answer with another status) returns the empty
    list and leaves the client as it was: no back-off is armed and the
    attempt does not count against the minimum interval, so the governor
    judges every later instant as it would have before. *)
Theorem failed_call_leaves_no_trace `{host : Host} `{net : Network}
    (w : World) (dt : float) (response : option HttpResponse) (message : string) :
  governor (clock w) (client w) = Available ->
  axios_result (List.length (requests w)) (opensky_request (client w))
    = Rejected dt response message ->
  (forall r, response = Some r -> status r <> 429%Z) ->
  fst (getOpenSkyFlights w) = Return []
  /\ client (snd (getOpenSkyFlights w)) = client w
  /\ requests (snd (getOpenSkyFlights w))
     = requests w ++ [opensky_request (client w)]
  /\ forall t, governor t (client (snd (getOpenSkyFlights w))) = governor t (client w).
Proof.
  intros Hg Hnet Hst.
  rewrite (opensky_failed_run w dt response message Hg Hnet Hst).
  cbn [fst snd client requests]. repeat split.
Qed.

Lemma failed_call_leaves_no_trace_witness :
  fst (getOpenSkyFlights (host := Sample.series_host) (net := Sample.adsb_up)
         Sample.start) = Return []
  /\ client (snd (getOpenSkyFlights (host := Sample.series_host)
                    (net := Sample.adsb_up) Sample.start))
     = client Sample.start.
Proof.
  destruct (@failed_call_leaves_no_trace Sample.series_host Sample.adsb_up
              Sample.start 15000%float None "timeout of 15000ms exceeded"
              eq_refl eq_refl (fun r E => match E with end)) as (R & C & _).
  split; assumption.
Defined.

(** X10. A 429 whose retry-after is at most 300 seconds arms the retry
    instant only: [openSkyDisabledUntil] stays as it was; a later call is
    refused while its clock is before the instant (unless the circuit was
    already open, it waits as [RetryWait]), and from the instant on the
    governor decides as if the 429 had not happened. *)
Theorem short_backoff_expires `{host : Host} `{net : Network}
    (w : World) (dt : float) (response : HttpResponse) (message : string) :
  governor (clock w) (client w) = Available ->
  axios_result (List.length (requests w)) (opensky_request (client w))
    = Rejected dt (Some response) message ->
  status response = 429%Z ->
  (300 <? retryAfterSeconds response)%float = false ->
  let until := (clock w + dt + retryAfterSeconds response * 1000)%float in
  let c' := client (snd (getOpenSkyFlights w)) in
  openSkyDisabledUntil c' = openSkyDisabledUntil (client w)
  /\ (forall t, (t <? until)%float = true ->
        governor t c' =
          if (t <? openSkyDisabledUntil (client w))%float then CircuitOpen
          else RetryWait)
  /\ (forall t, (t <? until)%float = false ->
        governor t c' =
          if (t <? openSkyDisabledUntil (client w))%float then CircuitOpen
          else if (t - lastOpenSkyCall (client w) <? openSkyMinInterval (client w))%float
               then Throttled else Available).
Proof.
  intros Hg Hnet Hst Hshort until c'. subst c'.
  rewrite (limited_run w dt response message Hg Hnet Hst). cbv zeta.
  rewrite Hshort. cbn [snd client]. fold until.
  split; [reflexivity|]. split; intros t Ht; unfold governor;
    cbn [openSkyDisabledUntil openSkyRetryAfter lastOpenSkyCall openSkyMinInterval
         set_openSkyRetryAfter]; rewrite Ht; reflexivity.
Qed.

Lemma short_backoff_expires_witness :
  let run := getOpenSkyFlights (host := Sample.series_host)
               (net := Fixture.opensky_429 "30") Sample.start in
  openSkyDisabledUntil (client (snd run)) = 0%float
  /\ governor 1700000030079 (client (snd run)) = RetryWait
  /\ governor 1700000030080 (client (snd run)) = Available.
Proof.
  cbv zeta.
  destruct (@short_backoff_expires Sample.series_host (Fixture.opensky_429 "30")
              Sample.start 80%float
              {| status := 429; headers := [(retry_after_header, "30")];
                 data := Str "" |}
              "Request failed with status code 429"
              eq_refl eq_refl eq_refl eq_refl) as (D & B & A).
  split; [exact D|]. split.
  - rewrite B; reflexivity.
  - rewrite A; reflexivity.
Defined.

(* ================================================================= *)
(** ** More facts about binary64 arithmetic: NaN and the order *)

Module FloatNaN.

Local Open Scope float_scope.

Lemma SFcompare_refl x : x <> S754_nan -> SFcompare x x = Some Eq.
Proof.
  destruct x as [s|s| |s m e]; cbn; intros H; try reflexivity; try congruence.
  - destruct s; reflexivity.
  - rewrite Z.compare_refl.
    assert (P : Pos.compare_cont Eq m m = Eq) by apply Pos.compare_refl.
    rewrite P. destruct s; reflexivity.
Qed.

Lemma is_nan_spec f : is_nan f = true -> Prim2SF f = S754_nan.
Proof.
  unfold is_nan. rewrite eqb_spec. unfold SFeqb. intros H.
  destruct (Prim2SF f) eqn:E; try reflexivity;
    rewrite SFcompare_refl in H by discriminate; discriminate H.
Qed.

Lemma is_nan_eq f : is_nan f = true -> f = nan.
Proof. intros H. apply Prim2SF_inj. rewrite (is_nan_spec f H). reflexivity. Qed.

Lemma mul_nan_l y : nan * y = nan.
Proof. apply Prim2SF_inj. rewrite mul_spec. reflexivity. Qed.

Lemma add_nan_r x : x + nan = nan.
Proof.
  apply Prim2SF_inj. rewrite add_spec.
  change (Prim2SF nan) with S754_nan. destruct (Prim2SF x); reflexivity.
Qed.

Lemma ltb_nan_r x : (x <? nan) = false.
Proof.
  rewrite ltb_spec. change (Prim2SF nan) with S754_nan.
  unfold SFltb. destruct (Prim2SF x); reflexivity.
Qed.

Lemma leb_nan_r x : (x <=? nan) = false.
Proof.
  rewrite leb_spec. change (Prim2SF nan) with S754_nan.
  unfold SFleb. destruct (Prim2SF x); reflexivity.
Qed.

Lemma leb_nan_l x : (nan <=? x) = false.
Proof. rewrite leb_spec. reflexivity. Qed.

(** [x - 0] is [x], NaN and the two zeros included. *)
Lemma sub_zero_r x : x - 0 = x.
Proof.
  apply Prim2SF_inj. rewrite sub_spec.
  change (Prim2SF 0) with (S754_zero false).
  destruct (Prim2SF x) as [s|s| |s m e]; try reflexivity.
  destruct s; reflexivity.
Qed.

Lemma not_below_of_leb a b : (a <=? b) = true -> (b <? a) = false.
Proof.
  rewrite leb_spec, ltb_spec. unfold SFleb, SFltb.
  rewrite (FloatOrder.SFcompare_antisym (Prim2SF a) (Prim2SF b)).
  destruct (SFcompare (Prim2SF a) (Prim2SF b)) as [[| |]|]; cbn;
    intros H; try reflexivity; discriminate H.
Qed.

(** What is at least 10000 is not below zero. *)
Lemma not_negative_of_large x : (10000 <=? x) = true -> (x <? 0) = false.
Proof.
  rewrite leb_spec, ltb_spec.
  change (Prim2SF 0) with (S754_zero false).
  replace (Prim2SF 10000) with (S754_finite false 5497558138880000 (-39))
    by (vm_compute; reflexivity).
  unfold SFleb, SFltb.
  destruct (Prim2SF x) as [s|s| |s m e]; cbn; try reflexivity;
    destruct s; cbn; intros H; try reflexivity; discriminate H.
Qed.

End FloatNaN.

(** X11. A 429 whose retry-after header does not begin with a number
    ([parseInt] gives NaN) arms nothing: [openSkyRetryAfter] becomes NaN,
    which no clock is below, [openSkyDisabledUntil] stays as it was, and
    the governor never answers [RetryWait] afterwards. *)
Theorem unreadable_retry_after `{host : Host} `{net : Network}
    (w : World) (dt : float) (response : HttpResponse) (message : string) :
  governor (clock w) (client w) = Available ->
  axios_result (List.length (requests w)) (opensky_request (client w))
    = Rejected dt (Some response) message ->
  status response = 429%Z ->
  is_nan (retryAfterSeconds response) = true ->
  let c' := client (snd (getOpenSkyFlights w)) in
  is_nan (openSkyRetryAfter c') = true
  /\ openSkyDisabledUntil c' = openSkyDisabledUntil (client w)
  /\ forall t,
       governor t c' =
         if (t <? openSkyDisabledUntil (client w))%float then CircuitOpen
         else if (t - lastOpenSkyCall (client w) <? openSkyMinInterval (client w))%float
              then Throttled else Available.
Proof.
  intros Hg Hnet Hst Hnan c'. subst c'.
  rewrite (limited_run w dt response message Hg Hnet Hst). cbv zeta.
  rewrite (FloatNaN.is_nan_eq _ Hnan).
  rewrite FloatNaN.mul_nan_l, FloatNaN.add_nan_r, FloatNaN.ltb_nan_r.
  cbn [snd client]. split; [reflexivity|]. split; [reflexivity|].
  intros t. unfold governor.
  cbn [openSkyDisabledUntil openSkyRetryAfter lastOpenSkyCall openSkyMinInterval
       set_openSkyRetryAfter].
  rewrite FloatNaN.ltb_nan_r. reflexivity.
Qed.

Lemma unreadable_retry_after_witness :
  let run := getOpenSkyFlights (host := Sample.series_host)
               (net := Fixture.opensky_429 "soon") Sample.start in
  is_nan (openSkyRetryAfter (client (snd run))) = true
  /\ governor 1700000000081 (client (snd run)) = Available.
Proof.
  cbv zeta.
  destruct (@unreadable_retry_after Sample.series_host (Fixture.opensky_429 "soon")
              Sample.start 80%float
              {| status := 429; headers := [(retry_after_header, "soon")];
                 data := Str "" |}
              "Request failed with status code 429"
              eq_refl eq_refl eq_refl eq_refl) as (N & _ & G).
  split; [exact N|]. rewrite G. reflexivity.
Defined.

Lemma ToBoolean_slot (o : option float) :
  ToBoolean (slot o) = match truthy_field o with Some _ => true | None => false end.
Proof.
  destruct o as [f|]; unfold slot, truthy_field, ToBoolean; [|reflexivity].
  destruct (is_zero f || is_nan f)%bool; reflexivity.
Qed.

Lemma converted_slot (o : option float) (factor a : float) :
  (if ToBoolean (slot o) then js_mul (slot o) factor else Return zero) = Return a ->
  a = match truthy_field o with Some m => (m * factor)%float | None => zero end.
Proof.
  rewrite ToBoolean_slot. destruct o as [f|]; unfold truthy_field, slot.
  - destruct (is_zero f || is_nan f)%bool; cbn [js_mul ToNumber bindE];
      intros H; injection H as <-; reflexivity.
  - intros H; injection H as <-; reflexivity.
Qed.

(** X12. The record [getOpenSkyFlights] makes of a state vector converts
    the altitude from metres to feet (times 3.28084) and the velocity from
    m/s to knots (times 1.94384), each 0 when the slot is [null] or zero;
    the vertical rate is passed on as it came (it is not converted, unlike
    in the ADSB.lol adapter), 0 when falsy; heading defaults to 0 and
    [on_ground] to [false]. *)
Theorem opensky_units (now : DateString) (l : list value) (r : Flight)
    (alt vel : option float) :
  opensky_flight now (Arr l) = Return r ->
  nth 7 l Undefined = slot alt ->
  nth 9 l Undefined = slot vel ->
  altitude r = Num (match truthy_field alt with
                    | Some m => (m * 3.28084)%float | None => zero end)
  /\ velocity r = Num (match truthy_field vel with
                       | Some v => (v * 1.94384)%float | None => zero end)
  /\ vertical_rate r = js_or (nth 11 l Undefined) (Num 0)
  /\ heading r = js_or (nth 10 l Undefined) (Num 0)
  /\ on_ground r = js_or (nth 8 l Undefined) (Bool false).
Proof.
  intros H Ha Hv. unfold opensky_flight in H. cbn [get_index bindE] in H.
  rewrite Ha, Hv in H. steps H. injection H as <-.
  cbn [altitude velocity vertical_rate heading on_ground].
  repeat match goal with
         | E : (if ToBoolean (slot _) then _ else _) = Return _ |- _ =>
             apply converted_slot in E; rewrite E
         end.
  repeat split.
Qed.

Lemma opensky_units_witness :
  exists r,
    opensky_flight (toISOString 1700000000000) Fixture.state_airborne = Return r
    /\ altitude r = Num (1000 * 3.28084)
    /\ velocity r = Num (100 * 1.94384)
    /\ vertical_rate r = Num (-5).
Proof.
  eexists. split; [vm_compute; reflexivity|].
  match goal with
  | |- altitude ?r = _ /\ _ =>
      destruct (opensky_units (toISOString 1700000000000)
                  [ Str "4b1805"; Str "SWR8T   "; Str "Switzerland"; Num 1700000000;
                    Num 1700000000; Num 8.55; Num 50.03; Num 1000; Bool false;
                    Num 100; Num 270; Num (-5); Null; Num 1050; Null; Bool false;
                    Num 0 ] r (Some 1000%float) (Some 100%float)
                  eq_refl eq_refl eq_refl) as (A & V & R & _)
  end.
  split; [exact A|]. split; [exact V|exact R].
Defined.

Lemma mapE_Forall2 {A B} (f : A -> Outcome B) (l : list A) (out : list B) :
  mapE f l = Return out -> Forall2 (fun a b => f a = Return b) l out.
Proof.
  revert out. induction l as [|x l IH]; cbn [mapE]; intros out H.
  - injection H as <-. constructor.
  - steps H. injection H as <-. constructor; [assumption|]. apply IH. assumption.
Qed.

Lemma mapE_Return {A B} (f : A -> Outcome B) (l : list A) :
  (forall a, In a l -> exists b, f a = Return b) ->
  exists out, mapE f l = Return out.
Proof.
  induction l as [|x l IH]; cbn [mapE]; intros H.
  - eexists. reflexivity.
  - destruct (H x (or_introl eq_refl)) as (b & ->).
    destruct IH as (out & ->); [intros a Ha; apply H; right; exact Ha|].
    eexists. reflexivity.
Qed.

(** X13. [getOpenSkyFlights] does not filter.  Of an answered call whose
    body holds an array of state vectors: when the normalization of every
    vector returns, the result is exactly one record per vector, in order,
    each the normalization of its vector and so with the coordinates the
    vector holds at indices 6 and 5; when the normalization of some vector
    throws, and only then, the result is the empty list. *)
Theorem opensky_one_record_per_state `{host : Host} `{net : Network}
    (w : World) (dt : float) (response : HttpResponse) (states : list value) :
  governor (clock w) (client w) = Available ->
  axios_result (List.length (requests w)) (opensky_request (client w))
    = Fulfilled dt response ->
  get_prop (data response) "states" = Return (Arr states) ->
  let now := toISOString (clock w + dt)%float in
  ((forall state, In state states -> exists r, opensky_flight now state = Return r) ->
   exists out,
     fst (getOpenSkyFlights w) = Return out
     /\ List.length out = List.length states
     /\ Forall2 (fun state r =>
                   opensky_flight now state = Return r
                   /\ get_index state 6 = Return (latitude r)
                   /\ get_index state 5 = Return (longitude r))
                states out)
  /\ ((exists state e, In state states /\ opensky_flight now state = Throw e) ->
      fst (getOpenSkyFlights w) = Return []).
Proof.
  intros Hg Hnet Hs now. rewrite (opensky_answered_run w dt response Hg Hnet).
  cbn [fst]. unfold opensky_flights.
  assert (T : ToBoolean (data response) = true).
  { destruct (data response); try discriminate Hs; reflexivity. }
  rewrite T, Hs. cbn [negb bindE ToBoolean]. fold now. split.
  - intros Hall. destruct (mapE_Return _ _ Hall) as (out & Hm).
    rewrite Hm. cbn [or_empty]. exists out. split; [reflexivity|].
    apply mapE_Forall2 in Hm. split.
    + symmetry. eapply Forall2_length. exact Hm.
    + eapply Forall2_impl; [|exact Hm]. cbn. intros state r Hr.
      split; [exact Hr|]. eapply opensky_flight_position. exact Hr.
  - intros (state & e & Hin & Ht).
    destruct (mapE_Throw _ _ _ _ Hin Ht) as (e' & ->). reflexivity.
Qed.

Lemma opensky_one_record_per_state_witness :
  exists r,
    fst (getOpenSkyFlights (host := Sample.series_host) (net := Sample.adsb_down)
           Sample.start) = Return [r]
    /\ opensky_flight (toISOString 1700000000120) Sample.state_no_position = Return r
    /\ latitude r = Null.
Proof.
  destruct (@opensky_one_record_per_state Sample.series_host Sample.adsb_down
              Sample.start 120%float
              {| status := 200; headers := [];
                 data := Obj [("time", Num 1700000000);
                              ("states", Arr [Sample.state_no_position])] |}
              [Sample.state_no_position] eq_refl eq_refl eq_refl)
    as (Hall & _).
  destruct Hall as (out & R & _ & F).
  - intros state [<-|[]]. eexists. vm_compute. reflexivity.
  - inversion F as [|state r l l' (Hr & Hlat & _) Hrest]; subst.
    inversion Hrest; subst. exists r. split; [exact R|]. split; [exact Hr|].
    change (Return Null = Return (latitude r)) in Hlat.
    injection Hlat as Hlat. symmetry. exact Hlat.
Defined.

(* ================================================================= *)
(** ** Further properties of the schedule adapter *)

Lemma get_prop_nullish (v : value) (k : string) :
  nullish v = true -> get_prop v k = Throw TypeError.
Proof. destruct v; cbn; intros H; try discriminate H; reflexivity. Qed.

Lemma get_prop_member (v : value) (k : string) :
  nullish v = false -> get_prop v k = Return (member v k).
Proof. destruct v; cbn; intros H; try discriminate H; reflexivity. Qed.

Lemma get_prop_Return (v : value) (k : string) (x : value) :
  get_prop v k = Return x -> nullish v = false.
Proof. destruct v; cbn; intros H; try discriminate H; reflexivity. Qed.

Lemma has_member_read (v : value) (k : string) :
  has_member v k = true ->
  get_prop v k = Return (member v k) /\ nullish (member v k) = false /\ nullish v = false.
Proof.
  unfold has_member. destruct (get_prop v k) as [x|e] eqn:E; [|discriminate].
  intros H. apply negb_true_iff in H.
  pose proof (get_prop_Return v k x E) as Nv.
  rewrite (get_prop_member v k Nv) in E. injection E as <-. auto.
Qed.

Lemma leg_of_Return (leg : value) (g : Leg.t) :
  leg_of leg = Return g -> nullish leg = false.
Proof.
  unfold leg_of. intros H. steps H.
  match goal with E : get_prop leg "airport" = Return _ |- _ =>
    exact (get_prop_Return _ _ _ E) end.
Qed.

Lemma leg_of_present (leg : value) :
  nullish leg = false -> exists g, leg_of leg = Return g.
Proof.
  intros N. unfold leg_of. rewrite !(get_prop_member leg _ N). cbn [bindE].
  eexists. reflexivity.
Qed.

(** X14. The normalization of a schedule entry succeeds exactly when the
    entry has its four members [flight], [airline], [departure] and
    [arrival], each neither absent nor [null]; nothing else it reads can
    make it throw (a missing [aircraft], status or time does not). *)
Theorem schedule_needs_four_members (entry : value) :
  (exists s, schedule_of entry = Return s)
  <-> (has_member entry "flight" && has_member entry "airline"
       && has_member entry "departure" && has_member entry "arrival")%bool = true.
Proof.
  split.
  - intros (s & H). unfold schedule_of in H. steps H.
    unfold has_member.
    repeat match goal with
           | E : get_prop entry ?k = Return ?v |- context [get_prop entry ?k] =>
               rewrite E
           end.
    repeat match goal with
           | E : get_prop ?v "iata" = Return _ |- _ =>
               apply get_prop_Return in E; try rewrite E
           | E : get_prop ?v "name" = Return _ |- _ =>
               apply get_prop_Return in E; try rewrite E
           | E : leg_of ?v = Return _ |- _ =>
               apply leg_of_Return in E; try rewrite E
           end.
    reflexivity.
  - intros H. apply andb_true_iff in H. destruct H as (H & H4).
    apply andb_true_iff in H. destruct H as (H & H3).
    apply andb_true_iff in H. destruct H as (H1 & H2).
    apply has_member_read in H1, H2, H3, H4.
    destruct H1 as (E1 & N1 & N0). destruct H2 as (E2 & N2 & _).
    destruct H3 as (E3 & N3 & _). destruct H4 as (E4 & N4 & _).
    destruct (leg_of_present _ N3) as (g3 & G3).
    destruct (leg_of_present _ N4) as (g4 & G4).
    unfold schedule_of. rewrite E1, E2, E3, E4. cbn [bindE].
    rewrite !(get_prop_member _ _ N1), !(get_prop_member _ _ N2). cbn [bindE].
    rewrite G3, G4. cbn [bindE].
    rewrite !(get_prop_member entry _ N0). cbn [bindE].
    assert (O : forall k, exists x, get_prop_opt (member entry "aircraft") k = Return x).
    { intros k. unfold get_prop_opt.
      destruct (member entry "aircraft"); cbn; eexists; reflexivity. }
    destruct (O "registration") as (x1 & ->).
    destruct (O "iata") as (x2 & ->).
    destruct (O "icao") as (x3 & ->). cbn [bindE].
    eexists. reflexivity.
Qed.

Lemma lookup_In {A} (k : string) (ps : list (string * A)) (v : A) :
  lookup k ps = Some v -> In v (map snd ps).
Proof.
  induction ps as [|[k' v'] ps IH]; cbn [lookup map snd In]; [discriminate|].
  destruct (lookup k ps) as [x|].
  - intros H. injection H as <-. right. apply IH. reflexivity.
  - destruct (String.eqb k k'); [|discriminate].
    intros H. injection H as <-. left. reflexivity.
Qed.

(** X15. With a key configured, [getAviationStackFlights] sends exactly
    one request, whatever comes back, with the key and a limit of 100.  Its
    [dep_iata] is the code the table gives for the configured ICAO code;
    for a code the table does not hold it is [FRA], unless the code is a
    name [Object.prototype] defines ([constructor], [toString], ...): the
    table is an object literal and answers such a name with the inherited
    member, which is truthy and so is sent in place of [FRA].  A rejection
    of any kind gives the empty list and changes nothing in the client
    (this feed has no back-off). *)
Theorem schedule_request `{net : Network} (w : World) (key : string) :
  aviationStackKey (client w) = Some key ->
  key <> "" ->
  exists dep,
    requests (snd (getAviationStackFlights w))
      = requests w ++ [AviationStackFlights key dep 100]
    /\ (forall code,
          lookup (airportICAO (client w)) icaoToIata = Some code -> dep = Code code)
    /\ (lookup (airportICAO (client w)) icaoToIata = None ->
        dep = if inherited (airportICAO (client w))
              then Inherited (airportICAO (client w)) else Code "FRA")
    /\ client (snd (getAviationStackFlights w)) = client w
    /\ fst (getAviationStackFlights w)
       = match axios_result (List.length (requests w))
                 (AviationStackFlights key dep 100) with
         | Fulfilled _ response =>
             Return (or_empty (aviationstack_schedules (data response)))
         | Rejected _ _ _ => Return []
         end.
Proof.
  intros Hkey Hne. rewrite (getAviationStackFlights_unfold w key Hkey Hne).
  unfold aviationstack_request.
  exists (iataCode (client w)).
  assert (O : forall code,
             lookup (airportICAO (client w)) icaoToIata = Some code ->
             iataCode (client w) = Code code).
  { intros code E. unfold iataCode. rewrite E. reflexivity. }
  assert (D : lookup (airportICAO (client w)) icaoToIata = None ->
              iataCode (client w)
              = if inherited (airportICAO (client w))
                then Inherited (airportICAO (client w)) else Code "FRA").
  { intros E. unfold iataCode. rewrite E. reflexivity. }
  destruct (axios_result _ _); cbn [fst snd client requests]; repeat split; assumption.
Qed.

Lemma schedule_request_witness :
  let w := Fixture.world_of
             (new_APIClient (Fixture.env_of [("AVIATIONSTACK_API_KEY", "k3y");
                                             ("AIRPORT_ICAO", "constructor")]))
             1700000000000 in
  requests (snd (getAviationStackFlights
                   (net := Sample.schedules_of [Sample.flight_complete]) w))
  = [AviationStackFlights "k3y" (Inherited "constructor") 100]
  /\ client (snd (getAviationStackFlights
                    (net := Sample.schedules_of [Sample.flight_complete]) w))
     = client w.
Proof.
  cbv zeta.
  destruct (@schedule_request (Sample.schedules_of [Sample.flight_complete])
              (Fixture.world_of
                 (new_APIClient (Fixture.env_of [("AVIATIONSTACK_API_KEY", "k3y");
                                                 ("AIRPORT_ICAO", "constructor")]))
                 1700000000000)
              "k3y" eq_refl ltac:(discriminate))
    as (dep & Q & _ & D & C & _).
  split; [|exact C]. rewrite Q, (D eq_refl). reflexivity.
Defined.

(** X16. There is never a partial batch.  Of an answered schedule call
    whose body holds an array of entries: when the normalization of every
    entry returns, the result is exactly one schedule per entry, in order,
    each the normalization of its entry; when the normalization of some
    entry throws, and only then, the result is the empty list. *)
Theorem schedule_batch_is_all_or_nothing `{net : Network}
    (w : World) (key : string) (dt : float) (response : HttpResponse)
    (batch : list value) :
  aviationStackKey (client w) = Some key ->
  key <> "" ->
  axios_result (List.length (requests w)) (aviationstack_request (client w) key)
    = Fulfilled dt response ->
  get_prop (data response) "data" = Return (Arr batch) ->
  ((forall entry, In entry batch -> exists s, schedule_of entry = Return s) ->
   exists out,
     fst (getAviationStackFlights w) = Return out
     /\ List.length out = List.length batch
     /\ Forall2 (fun entry s => schedule_of entry = Return s) batch out)
  /\ ((exists entry e, In entry batch /\ schedule_of entry = Throw e) ->
      fst (getAviationStackFlights w) = Return []).
Proof.
  intros Hkey Hne Hnet Hd. rewrite (getAviationStackFlights_unfold w key Hkey Hne).
  rewrite Hnet. cbn [fst].
  unfold aviationstack_schedules.
  assert (T : ToBoolean (data response) = true).
  { destruct (data response); try discriminate Hd; reflexivity. }
  rewrite T, Hd. cbn [negb bindE ToBoolean]. split.
  - intros Hall. destruct (mapE_Return _ _ Hall) as (out & Hm).
    rewrite Hm. cbn [or_empty]. exists out. split; [reflexivity|].
    apply mapE_Forall2 in Hm. split; [|exact Hm].
    symmetry. eapply Forall2_length. exact Hm.
  - intros (entry & e & Hin & Ht).
    destruct (mapE_Throw _ _ _ _ Hin Ht) as (e' & ->). reflexivity.
Qed.

Lemma schedule_batch_is_all_or_nothing_witness :
  let w := Sample.with_key Sample.start in
  exists s1 s2,
    fst (getAviationStackFlights
           (net := Sample.schedules_of
                     [Sample.flight_complete; Sample.flight_complete]) w)
    = Return [s1; s2]
    /\ schedule_of Sample.flight_complete = Return s1
    /\ schedule_of Sample.flight_complete = Return s2.
Proof.
  cbv zeta.
  destruct (@schedule_batch_is_all_or_nothing
              (Sample.schedules_of [Sample.flight_complete; Sample.flight_complete])
              (Sample.with_key Sample.start) "k3y" 120%float
              {| status := 200; headers := [];
                 data := Obj [("data", Arr [Sample.flight_complete;
                                            Sample.flight_complete])] |}
              [Sample.flight_complete; Sample.flight_complete]
              eq_refl ltac:(discriminate) eq_refl eq_refl)
    as (Hall & _).
  destruct Hall as (out & R & _ & F).
  - intros entry [<-|[<-|[]]]; eexists; vm_compute; reflexivity.
  - inversion F as [|e1 s1 l l' H1 F1]; subst.
    inversion F1 as [|e2 s2 l2 l2' H2 F2]; subst.
    inversion F2; subst. exists s1, s2. auto.
Defined.

(* ================================================================= *)
(** ** Further properties of the ADSB.lol normalization *)

(** X17. The two response shapes of ADSB.lol are read alike: a body that
    is an object whose [ac] member is an array gives the records the bare
    array gives. *)
Theorem adsb_body_shapes (now : DateString) (ps : list (string * value))
    (aircraft : list value) :
  lookup "ac" ps = Some (Arr aircraft) ->
  adsb_flights now (Obj ps) = adsb_flights now (Arr aircraft).
Proof.
  intros H. unfold adsb_flights. cbn [get_prop bindE]. rewrite H.
  unfold js_or. cbn [ToBoolean bindE]. reflexivity.
Qed.

Lemma adsb_body_shapes_witness :
  adsb_flights (toISOString 1700000000000)
    (Obj [("now", Num 1700000000); ("ac", Arr [Sample.aircraft_300])])
  = adsb_flights (toISOString 1700000000000) (Arr [Sample.aircraft_300]).
Proof.
  exact (adsb_body_shapes (toISOString 1700000000000)
           [("now", Num 1700000000); ("ac", Arr [Sample.aircraft_300])]
           [Sample.aircraft_300] eq_refl).
Defined.

Lemma filterE_length {A} (f : A -> Outcome bool) (l kept : list A) :
  filterE f l = Return kept -> List.length kept <= List.length l.
Proof.
  revert kept. induction l as [|x l IH]; cbn [filterE]; intros kept H.
  - injection H as <-. reflexivity.
  - steps H. injection H as <-.
    match goal with E : filterE f l = Return ?k |- _ => specialize (IH k E) end.
    match goal with E : f x = Return ?b |- _ => destruct b end; cbn; lia.
Qed.

Lemma mapE_length {A B} (f : A -> Outcome B) (l : list A) (out : list B) :
  mapE f l = Return out -> List.length out = List.length l.
Proof.
  intros H. apply mapE_Forall2 in H. symmetry. eapply Forall2_length. exact H.
Qed.

(** X18. Whatever the body of the response is, [getAdsbLolFlights] makes
    of it at most one record per entry of its aircraft array, and none at
    all of a body that has no such array. *)
Theorem adsb_at_most_one_record_per_aircraft (now : DateString) (body : value) :
  List.length (or_empty (adsb_flights now body)) <= List.length (aircraft_of body).
Proof.
  destruct (adsb_flights now body) as [out|e] eqn:H; cbn [or_empty List.length];
    [|lia].
  destruct (adsb_flights_stages now body out H) as [->|(kept & Hf & Hm)];
    [cbn; lia|].
  rewrite (mapE_length _ _ _ Hm). exact (filterE_length _ _ _ Hf).
Qed.

Lemma trim_start_blank (s : list ascii) :
  forallb Latin1.is_space s = true -> Latin1.trim_start_list s = [].
Proof.
  induction s as [|c s IH]; cbn [forallb Latin1.trim_start_list]; [reflexivity|].
  intros H. apply andb_true_iff in H. destruct H as (Hc & Hs).
  rewrite Hc. exact (IH Hs).
Qed.

Lemma trim_blank (s : string) :
  forallb Latin1.is_space (list_ascii_of_string s) = true -> Latin1.trim s = "".
Proof.
  intros H. unfold Latin1.trim, Latin1.trim_list.
  rewrite (trim_start_blank _ H). reflexivity.
Qed.

(** X19. The call sign of a record: a non-empty [flight] String gives its
    trimmed text, also when that leaves nothing (a [flight] made of white
    space gives the empty call sign, the registration and the hex id being
    ignored); without a [flight] the call sign is the registration, else
    the hex id, else [UNKNOWN], and so is never falsy. *)
Theorem adsb_callsign (now : DateString) (aircraft flight : value) (r : Flight) :
  adsb_flight now aircraft = Return r ->
  get_prop aircraft "flight" = Return flight ->
  (forall s, flight = Str s -> s <> "" ->
     callsign r = Str (Latin1.trim s)
     /\ (forallb Latin1.is_space (list_ascii_of_string s) = true ->
         callsign r = Str ""))
  /\ (ToBoolean flight = false ->
      callsign r = js_or (js_or (member aircraft "r") (member aircraft "hex"))
                         (Str "UNKNOWN")
      /\ ToBoolean (callsign r) = true).
Proof.
  intros H Hf. pose proof (get_prop_Return _ _ _ Hf) as N.
  unfold adsb_flight in H. rewrite Hf in H. cbn [bindE] in H.
  rewrite !(get_prop_member aircraft _ N) in H. cbn [bindE] in H.
  split.
  - intros s -> Hne. apply String.eqb_neq in Hne.
    cbn [ToBoolean call_trim bindE] in H. rewrite Hne in H. cbn [negb bindE] in H.
    steps H. injection H as <-. cbn [callsign].
    split; [reflexivity|]. intros Hb. rewrite (trim_blank s Hb). reflexivity.
  - intros Hfalse. rewrite Hfalse in H. cbn [bindE] in H.
    steps H. injection H as <-. cbn [callsign]. split; [reflexivity|].
    unfold js_or.
    destruct (ToBoolean (if ToBoolean (member aircraft "r") then _ else _)) eqn:T;
      [exact T|reflexivity].
Qed.

Lemma adsb_callsign_witness :
  exists r,
    adsb_flight (toISOString 1700000000000) Sample.aircraft_300 = Return r
    /\ callsign r = Str "DLH400".
Proof.
  eexists. split; [vm_compute; reflexivity|].
  match goal with
  | |- callsign ?r = _ =>
      destruct (adsb_callsign (toISOString 1700000000000) Sample.aircraft_300
                  (Str "DLH400  ") r eq_refl eq_refl) as (T & _)
  end.
  destruct (T "DLH400  " eq_refl ltac:(discriminate)) as (-> & _).
  reflexivity.
Defined.

(* ================================================================= *)
(** ** The constructor *)

(** X20. A client just constructed lets the first OpenSky call through,
    whatever the environment, at any clock of at least 10000 ms: the call
    sends its request. *)
Theorem fresh_client_is_available `{host : Host} `{net : Network}
    (env : Env) (w : World) :
  client w = new_APIClient env ->
  (10000 <=? clock w)%float = true ->
  governor (clock w) (client w) = Available
  /\ requests (snd (getOpenSkyFlights w))
     = requests w ++ [opensky_request (client w)].
Proof.
  intros Hc Ht.
  assert (G : governor (clock w) (client w) = Available).
  { rewrite Hc. unfold governor.
    cbn [new_APIClient openSkyDisabledUntil openSkyRetryAfter lastOpenSkyCall
         openSkyMinInterval].
    rewrite FloatNaN.sub_zero_r, (FloatNaN.not_negative_of_large _ Ht),
      (FloatNaN.not_below_of_leb _ _ Ht). reflexivity. }
  split; [exact G|].
  destruct (axios_result (List.length (requests w)) (opensky_request (client w)))
    as [dt r|dt [r|] msg] eqn:Hn.
  - rewrite (opensky_answered_run w dt r G Hn). reflexivity.
  - destruct (Z.eq_dec (status r) 429) as [Hs|Hs].
    + rewrite (limited_run w dt r msg G Hn Hs). reflexivity.
    + rewrite (opensky_failed_run w dt (Some r) msg G Hn)
        by (intros r0 E; injection E as <-; exact Hs).
      reflexivity.
  - rewrite (opensky_failed_run w dt None msg G Hn) by (intros r0 E; discriminate E).
    reflexivity.
Qed.

Lemma fresh_client_is_available_witness :
  let w := Fixture.world_of
             (new_APIClient (Fixture.env_of [("OPENSKY_USERNAME", "tower")]))
             1700000000000 in
  governor (clock w) (client w) = Available
  /\ List.length
       (requests (snd (getOpenSkyFlights (host := Sample.series_host)
                         (net := Sample.adsb_down) w))) = 1.
Proof.
  cbv zeta.
  destruct (@fresh_client_is_available Sample.series_host Sample.adsb_down
              (Fixture.env_of [("OPENSKY_USERNAME", "tower")])
              (Fixture.world_of
                 (new_APIClient (Fixture.env_of [("OPENSKY_USERNAME", "tower")]))
                 1700000000000)
              eq_refl eq_refl) as (G & Q).
  split; [exact G|]. rewrite Q. reflexivity.
Defined.

(** X21. The airport settings fall back to Frankfurt when their variables
    are not set or are set to the empty string: EDDF at 50.0379, 8.5622
    with a zone of 10 km. *)
Theorem airport_defaults (env : Env) :
  unset_or_empty (env "AIRPORT_ICAO") = true ->
  unset_or_empty (env "AIRPORT_LATITUDE") = true ->
  unset_or_empty (env "AIRPORT_LONGITUDE") = true ->
  unset_or_empty (env "AIRPORT_ZONE_RADIUS_KM") = true ->
  airportICAO (new_APIClient env) = "EDDF"
  /\ airportLat (new_APIClient env) = 50.0379%float
  /\ airportLon (new_APIClient env) = 8.5622%float
  /\ airportRadius (new_APIClient env) = 10%float.
Proof.
  intros H1 H2 H3 H4.
  assert (D : forall v d, unset_or_empty v = true -> env_or v d = d).
  { intros [s|] d H; cbn in *; [rewrite H|]; reflexivity. }
  cbn [new_APIClient airportICAO airportLat airportLon airportRadius].
  rewrite (D _ _ H1), (D _ _ H2), (D _ _ H3), (D _ _ H4).
  repeat split; vm_compute; reflexivity.
Qed.

Lemma airport_defaults_witness :
  let env := Fixture.env_of [("AVIATIONSTACK_API_KEY", "k3y"); ("AIRPORT_ICAO", "")] in
  airportICAO (new_APIClient env) = "EDDF"
  /\ airportLat (new_APIClient env) = 50.0379%float
  /\ airportLon (new_APIClient env) = 8.5622%float
  /\ airportRadius (new_APIClient env) = 10%float.
Proof.
  exact (airport_defaults
           (Fixture.env_of [("AVIATIONSTACK_API_KEY", "k3y"); ("AIRPORT_ICAO", "")])
           eq_refl eq_refl eq_refl eq_refl).
Defined.

(** X22. With a zone radius that is NaN (as [parseFloat] makes of a
    setting that does not begin with a number), or a distance that is NaN,
    no position is in the airport zone. *)
Theorem nan_radius_empties_the_zone `{host : Host}
    (c : APIClient) (lat lon : float) :
  is_nan (airportRadius c) = true
  \/ is_nan (calculateDistance (airportLat c) (airportLon c) lat lon) = true ->
  isInAirportZone c lat lon = false.
Proof.
  unfold isInAirportZone. intros [H|H]; rewrite (FloatNaN.is_nan_eq _ H).
  - apply FloatNaN.leb_nan_r.
  - apply FloatNaN.leb_nan_l.
Qed.

Lemma nan_radius_empties_the_zone_witness :
  let c := new_APIClient (Fixture.env_of [("AIRPORT_ZONE_RADIUS_KM", "ten")]) in
  is_nan (airportRadius c) = true
  /\ isInAirportZone (host := Sample.series_host) c (airportLat c) (airportLon c)
     = false.
Proof.
  cbv zeta. split; [reflexivity|].
  apply (@nan_radius_empties_the_zone Sample.series_host).
  left. reflexivity.
Defined.

(** X23. The OpenSky request carries credentials exactly when both the
    user name and the password are set and not empty, and then carries
    those two; with one of them missing it is anonymous. *)
Theorem opensky_credentials `{host : Host} (c : APIClient) :
  exists lamin lomin lamax lomax auth,
    opensky_request c = OpenSkyStates lamin lomin lamax lomax auth
    /\ match auth with
       | Some (user, password) =>
           openSkyUsername c = Some user /\ openSkyPassword c = Some password
           /\ user <> "" /\ password <> ""
       | None =>
           unset_or_empty (openSkyUsername c) = true
           \/ unset_or_empty (openSkyPassword c) = true
       end.
Proof.
  unfold opensky_request, hasOpenSkyCredentials. cbv zeta.
  eexists _, _, _, _, _. split; [reflexivity|].
  destruct (openSkyUsername c) as [u|], (openSkyPassword c) as [p|];
    cbn [env_truthy unset_or_empty andb]; auto.
  - destruct (String.eqb_spec u ""), (String.eqb_spec p "");
      cbn [negb andb]; auto.
  - destruct (String.eqb u ""); cbn [negb andb]; auto.
Qed.

(** X24. The primary feed is disabled only by [USE_ADSB_LOL] being exactly
    [false]: with any other value, or none, a run of [getAllFlights] on a
    client just constructed enters [getAdsbLolFlights] once; with [false]
    it does not enter it. *)
Theorem primary_flag `{host : Host} `{net : Network} (env : Env) (w : World) :
  client w = new_APIClient env ->
  entries AdsbLol (invoked (snd (getAllFlights w)))
  = entries AdsbLol (invoked w)
    + match env "USE_ADSB_LOL" with
      | Some text => if String.eqb text "false" then 0 else 1
      | None => 1
      end.
Proof.
  intros Hc.
  assert (U : useAdsbLol (client w) =
              negb (match env "USE_ADSB_LOL" with
                    | Some s => String.eqb s "false" | None => false end))
    by (rewrite Hc; reflexivity).
  assert (L : exists log,
             invoked (snd (getAllFlights w)) = invoked w ++ log
             /\ entries AdsbLol log = if useAdsbLol (client w) then 1 else 0).
  { destruct (useAdsbLol (client w)) eqn:Hp.
    - destruct (getAllFlights_primary_log w Hp)
        as (primary & w1 & envelope & w2 & _ & R & L).
      rewrite R. cbn [snd]. eexists. split; [exact L|].
      destruct primary; reflexivity.
    - destruct (getAllFlights_unfold w) as (p & w1 & s & w2 & R1 & R2 & R).
      destruct (live_positions_footprint w) as (_ & sent & log & _ & L1 & _ & F).
      destruct (F Hp) as (_ & ->).
      destruct (schedule_footprint w1) as (_ & L2 & _).
      rewrite R1 in L1. rewrite R2 in L2. rewrite R. cbn [snd] in *.
      exists [OpenSky; AviationStack]. split; [|reflexivity].
      rewrite L2, L1, <- app_assoc. reflexivity. }
  destruct L as (log & -> & E). rewrite entries_app, E, U.
  destruct (env "USE_ADSB_LOL") as [text|]; [|reflexivity].
  destruct (String.eqb text "false"); reflexivity.
Qed.

Lemma primary_flag_witness :
  let env := Fixture.env_of [("USE_ADSB_LOL", "False")] in
  let w := Fixture.world_of (new_APIClient env) 1700000000000 in
  env "USE_ADSB_LOL" = Some "False"
  /\ entries AdsbLol
       (invoked (snd (getAllFlights (host := Sample.series_host)
                        (net := Sample.adsb_up) w))) = 1.
Proof.
  cbv zeta. split; [reflexivity|].
  exact (@primary_flag Sample.series_host Sample.adsb_up
           (Fixture.env_of [("USE_ADSB_LOL", "False")])
           (Fixture.world_of (new_APIClient (Fixture.env_of [("USE_ADSB_LOL", "False")]))
              1700000000000)
           eq_refl).
Defined.

(** X25. When the primary feed is preferred and a run of [getAllFlights]
    did not consult OpenSky, every position of the envelope keeps the
    coordinate invariant (a latitude within 90 and a longitude within 180
    degrees, both numbers), provided the coordinates the provider sends
    are JSON numbers, [null] or absent. *)
Theorem primary_envelope_is_valid `{host : Host} `{net : Network}
    (w : World) (envelope : Envelope) :
  (forall n req dt response,
      axios_result n req = Fulfilled dt response ->
      forallb plain_position (aircraft_of (data response)) = true) ->
  useAdsbLol (client w) = true ->
  fst (getAllFlights w) = Return envelope ->
  entries OpenSky (invoked (snd (getAllFlights w))) = entries OpenSky (invoked w) ->
  forallb valid_coordinates (livePositions envelope) = true.
Proof.
  intros Hnet Hp Hr Ho.
  destruct (getAllFlights_unfold w) as (p & w1 & s & w2 & R1 & R2 & R).
  rewrite R in Hr, Ho. cbn [fst snd] in Hr, Ho. injection Hr as <-.
  cbn [livePositions].
  destruct (schedule_footprint w1) as (_ & L2 & _). rewrite R2 in L2.
  cbn [snd] in L2. rewrite L2 in Ho. clear R R2 L2.
  unfold live_positions, bind, this in R1. rewrite Hp in R1.
  destruct (adsb_footprint w) as (_ & L1 & _).
  destruct (getAdsbLolFlights w) as [[l|e] wa] eqn:Ra; [|discriminate R1].
  cbn [snd] in L1.
  destruct (Nat.eqb (List.length l) 0).
  - exfalso. destruct (opensky_footprint wa) as (_ & L3 & _).
    rewrite R1 in L3. cbn [snd] in L3. rewrite L3, L1 in Ho.
    rewrite !entries_app in Ho. cbn in Ho. lia.
  - unfold ret in R1. injection R1 as <- <-.
    exact (getAdsbLolFlights_valid w wa l Hnet Ra).
Qed.

Lemma primary_envelope_is_valid_witness :
  exists envelope,
    fst (getAllFlights (host := Sample.series_host) (net := Sample.adsb_up)
           Sample.start) = Return envelope
    /\ List.length (livePositions envelope) = 1
    /\ forallb valid_coordinates (livePositions envelope) = true.
Proof.
  eexists. split; [vm_compute; reflexivity|]. split; [reflexivity|].
  apply (@primary_envelope_is_valid Sample.series_host Sample.adsb_up Sample.start).
  - intros n [lat lon dist|lat lon dist|a b c d e|k c l] dt response H;
      cbn in H; try discriminate H.
    injection H as _ <-. reflexivity.
  - reflexivity.
  - vm_compute. reflexivity.
  - vm_compute. reflexivity.
Defined.
